(** * A trainable text-lookup task: the fitted model and its lifecycle controller

    Shallow embedding of [src/main.py]: the class [FittedMLModel] (a dict
    wrapper answering point predictions) and the class [FitActionExample]
    (the task that builds, persists, restores and prunes such a model
    through a storage backend of the hosting SDK).

    Python objects are embedded as follows.
    - A [dict] is an insertion-ordered association list without repeated
      keys; [d[k] = v] overwrites in place or appends.
    - A raised exception is a value of [exn]; a computation that may raise
      returns a [result].
    - Methods that touch [self] or the outside world are written in a small
      state-and-exception monad; the state survives a raise, as in Python.
    - The hosting SDK (environment lookup, storage backends, pickling of
      streams) is not part of the repository: it is the interface [SDK]. *)

From Stdlib Require Import String List Bool Arith Lia ZArith FinFun.
From Stdlib Require Import Decimal DecimalNat DecimalZ DecimalString.
Import ListNotations.
Open Scope string_scope.

Set Implicit Arguments.

(** ** Python values, exceptions, results *)

(** The objects that occur as dict keys or as the argument of [has_data]
    and [predict]: a [str] or an [int]. *)
Inductive pyobj : Type :=
| PStr (s : string)
| PInt (z : Z).

Definition pyobj_eqb (a b : pyobj) : bool :=
  match a, b with
  | PStr s, PStr s' => String.eqb s s'
  | PInt z, PInt z' => Z.eqb z z'
  | _, _ => false
  end.

(** [str(idx)] for the non-negative index that [enumerate] hands out. *)
Definition str_nat (n : nat) : string :=
  NilEmpty.string_of_uint (Nat.to_uint n).

(** Python's [str(o)]: a [str] is returned as it is, an [int] in decimal. *)
Definition py_str (o : pyobj) : string :=
  match o with
  | PStr s => s
  | PInt z => NilEmpty.string_of_int (Z.to_int z)
  end.

(** What can be raised.  [ValueError], [KeyError] and [OtherException]
    are classes derived from [Exception]: [KeyError] keeps the object it
    was raised with, and [OtherException] stands for every such class
    that is neither a [ValueError] nor a [KeyError] (OSError,
    UnpicklingError, ...).  [NotException] stands for the classes derived
    from [BaseException] but not from [Exception] (KeyboardInterrupt,
    SystemExit, GeneratorExit). *)
Inductive exn : Type :=
| ValueError (msg : string)
| KeyError (arg : pyobj)
| OtherException (cls : string) (msg : string)
| NotException (cls : string) (msg : string).

(** [except KeyError] *)
Definition is_KeyError (e : exn) : bool :=
  match e with
  | KeyError _ => true
  | _ => false
  end.

(** [except Exception] *)
Definition is_Exception (e : exn) : bool :=
  match e with
  | NotException _ _ => false
  | _ => true
  end.

Inductive result (A : Type) : Type :=
| Ok (a : A)
| Raise (e : exn).

Arguments Ok {A} a.
Arguments Raise {A} e.

(** ** dict *)

Definition dict : Type := list (pyobj * string).

Fixpoint dict_get (k : pyobj) (d : dict) : option string :=
  match d with
  | [] => None
  | (k', v) :: d' => if pyobj_eqb k k' then Some v else dict_get k d'
  end.

(** [k in d] *)
Definition dict_contains (k : pyobj) (d : dict) : bool :=
  match dict_get k d with
  | Some _ => true
  | None => false
  end.

(** [d[k]] *)
Definition dict_getitem (k : pyobj) (d : dict) : result string :=
  match dict_get k d with
  | Some v => Ok v
  | None => Raise (KeyError k)
  end.

(** [d[k] = v] *)
Fixpoint dict_set (k : pyobj) (v : string) (d : dict) : dict :=
  match d with
  | [] => [(k, v)]
  | (k', v') :: d' =>
      if pyobj_eqb k k' then (k', v) :: d' else (k', v') :: dict_set k v d'
  end.

Definition dict_keys (d : dict) : list pyobj := map fst d.

(** ** Iteration

    [for x in texts] consumes [texts] through the iteration protocol: each
    step yields a string, ends the loop, or raises.  A list of strings is
    the iterable that never raises. *)
Inductive iterable : Type :=
| StopIteration
| Next (x : string) (rest : iterable)
| NextRaises (e : exn).

Fixpoint iter_of_list (l : list string) : iterable :=
  match l with
  | [] => StopIteration
  | x :: l' => Next x (iter_of_list l')
  end.

(** ** class FittedMLModel *)

Module FittedMLModel.

Record t : Type := mk { data : dict }.

Definition has_data (self : t) (index : pyobj) : bool :=
  dict_contains index (data self).

Definition placeholder : string := "No such sentence in the original dataset".

Definition predict (self : t) (index : pyobj) : result string :=
  if dict_contains index (data self)
  then dict_getitem (PStr (py_str index)) (data self)
  else Ok placeholder.

End FittedMLModel.

(** ** FitActionExample._prepare_model_data *)

Fixpoint prepare_loop (idx : nat) (texts : iterable) (data : dict) : result dict :=
  match texts with
  | StopIteration => Ok data
  | Next text rest => prepare_loop (S idx) rest (dict_set (PStr (str_nat idx)) text data)
  | NextRaises e => Raise e
  end.

Definition _prepare_model_data (texts : iterable) : result dict :=
  prepare_loop 0 texts [].

(** The mapping as the specification words it: key = decimal string of the
    0-based position, value = the text at that position, in input order. *)
Definition indexed_from (start : nat) (texts : list string) : dict :=
  combine (map (fun i => PStr (str_nat i)) (seq start (length texts))) texts.

Definition build_spec (texts : list string) : dict := indexed_from 0 texts.

(** ** Result groups returned by [predict] (pydantic records of the SDK) *)

Record Item : Type := mkItem { value : string }.
Record Items : Type := mkItems { items : list Item }.
Record ItemsCollection : Type := mkItemsCollection { items_list : list Items }.

(** ** The state-and-exception monad *)

Definition M (S A : Type) : Type := S -> result A * S.

Definition ret {S A : Type} (a : A) : M S A := fun s => (Ok a, s).

Definition raise {S A : Type} (e : exn) : M S A := fun s => (Raise e, s).

Definition bind {S A B : Type} (m : M S A) (k : A -> M S B) : M S B :=
  fun s =>
    match m s with
    | (Ok a, s') => k a s'
    | (Raise e, s') => (Raise e, s')
    end.

(** [try: body / except <catches> as e: handler e] *)
Definition try_except {S A : Type} (body : M S A) (catches : exn -> bool)
  (handler : exn -> M S A) : M S A :=
  fun s =>
    match body s with
    | (Ok a, s') => (Ok a, s')
    | (Raise e, s') => if catches e then handler e s' else (Raise e, s')
    end.

Definition lift_result {S A : Type} (r : result A) : M S A := fun s => (r, s).

Declare Scope py_scope.
Delimit Scope py_scope with py.
Notation "x <- m ;; k" := (bind m (fun x => k))
  (at level 61, m at next level, right associativity) : py_scope.
Notation "m ;;; k" := (bind m (fun _ => k))
  (at level 61, right associativity) : py_scope.
Open Scope py_scope.

(** ** Storage handles

    The object built by [LocalStorage(path=...)] or [S3Storage(...)], kept
    as the arguments it was built from; [path] is the string handed to
    [Path]. *)
Inductive Storage : Type :=
| LocalStorage (path : string)
| S3Storage (bucket data_dir service_name region access_key secret_key endpoint : string).

(** The root under which a handle resolves keys. *)
Definition storage_dir_of (st : Storage) : string :=
  match st with
  | LocalStorage path => path
  | S3Storage _ data_dir _ _ _ _ _ => data_dir
  end.

(** ** The hosting SDK

    What [main.py] imports from [mlp_sdk] and [pickle].  [ext] is the state
    of the outside (process environment, file systems, buckets); every
    operation may raise. *)
Class SDK : Type := {
  ext : Type;
  stream : Type;
  bytes : Type;
  (** [LocalStorage.name()], [S3Storage.name()] *)
  LocalStorage_name : string;
  S3Storage_name : string;
  (** [get_env(name)] and [get_env(name, default)]: reads, never writes *)
  get_env : string -> option string -> ext -> result string;
  (** what the constructor of a handle does *)
  storage_init : Storage -> ext -> result unit * ext;
  (** [storage.open(path, mode)] followed by [__enter__] *)
  storage_open : Storage -> string -> string -> ext -> result stream * ext;
  (** [fin.read()] *)
  stream_read : stream -> ext -> result bytes * ext;
  (** [__exit__] of the stream; it does not swallow exceptions *)
  stream_exit : stream -> ext -> result unit * ext;
  (** [pickle.dump(model, fout)] *)
  pickle_dump : FittedMLModel.t -> stream -> ext -> result unit * ext;
  (** [pickle.loads(blob)] *)
  pickle_loads : bytes -> result FittedMLModel.t;
  (** [storage.remove(path)] *)
  storage_remove : Storage -> string -> ext -> result unit * ext
}.

(** Calls into a storage backend, in the order they are attempted. *)
Inductive io_event : Type :=
| IoInit (st : Storage)
| IoOpen (st : Storage) (path mode : string)
| IoRead
| IoDump (m : FittedMLModel.t)
| IoExit
| IoRemove (st : Storage) (path : string).

(** [LOGGER.error(f"<prefix>{e}")]: the record keeps the prefix and the
    exception that is formatted after it. *)
Record log_record : Type := LogError { log_prefix : string; log_exn : exn }.

Section Controller.

Context {sdk : SDK}.

Record World : Type := mkWorld {
  w_ext : ext;
  w_io : list io_event;
  w_log : list log_record
}.

(** An SDK call that reaches a storage backend: recorded, then performed. *)
Definition io_call {A : Type} (ev : io_event) (op : ext -> result A * ext) : M World A :=
  fun w =>
    let (r, x) := op (w_ext w) in
    (r, {| w_ext := x; w_io := w_io w ++ [ev]; w_log := w_log w |}).

Definition env (name : string) (default : option string) : M World string :=
  fun w => (get_env name default (w_ext w), w).

Definition logged (prefix : string) (e : exn) (w : World) : World :=
  {| w_ext := w_ext w; w_io := w_io w;
     w_log := w_log w ++ [LogError prefix e] |}.

Definition LOGGER_error (prefix : string) (e : exn) : M World unit :=
  fun w => (Ok tt, logged prefix e w).

(** *** FitActionExample._get_storage (a static method) *)
Definition _get_storage (model_dir : string) : M World Storage :=
  storage_type <- env "MLP_STORAGE_TYPE" None ;;
  storage_dir <- (if Nat.eqb (String.length model_dir) 0
                  then env "MLP_STORAGE_DIR" None
                  else ret model_dir) ;;
  if String.eqb storage_type LocalStorage_name then
    let storage := LocalStorage storage_dir in
    io_call (IoInit storage) (storage_init storage) ;;;
    ret storage
  else if String.eqb storage_type S3Storage_name then
    bucket <- env "MLP_S3_BUCKET" None ;;
    region <- env "MLP_S3_REGION" (Some "") ;;
    access_key <- env "MLP_S3_ACCESS_KEY" None ;;
    secret_key <- env "MLP_S3_SECRET_KEY" None ;;
    endpoint <- env "MLP_S3_ENDPOINT" None ;;
    let storage := S3Storage bucket storage_dir "s3" region access_key secret_key endpoint in
    io_call (IoInit storage) (storage_init storage) ;;;
    ret storage
  else
    let message := "storage_type " ++ storage_type ++ " is invalid." in
    raise (ValueError message).

(** The directory [_get_storage] settles on: the override, or the
    environment's when the override is empty. *)
Definition resolved_dir (model_dir : string) (w : World) : result string :=
  if Nat.eqb (String.length model_dir) 0
  then get_env "MLP_STORAGE_DIR" None (w_ext w)
  else Ok model_dir.

(** *** The instance attributes *)
Record FitActionExample : Type := mkTask {
  model : FittedMLModel.t;
  storage : Storage;
  model_path : string;
  is_fitted_model : bool
}.

(** A method runs on [self] and the world. *)
Definition St : Type := (FitActionExample * World)%type.

Definition liftW {A : Type} (m : M World A) : M St A :=
  fun s =>
    let (r, w') := m (snd s) in (r, (fst s, w')).

Definition get_self : M St FitActionExample := fun s => (Ok (fst s), s).

Definition upd_model (m : FittedMLModel.t) (self : FitActionExample) : FitActionExample :=
  {| model := m; storage := storage self;
     model_path := model_path self; is_fitted_model := is_fitted_model self |}.

Definition upd_storage (st : Storage) (self : FitActionExample) : FitActionExample :=
  {| model := model self; storage := st;
     model_path := model_path self; is_fitted_model := is_fitted_model self |}.

Definition upd_is_fitted_model (b : bool) (self : FitActionExample) : FitActionExample :=
  {| model := model self; storage := storage self;
     model_path := model_path self; is_fitted_model := b |}.

(** [self.model = m], [self.storage = st], [self.is_fitted_model = b] *)
Definition set_model (m : FittedMLModel.t) : M St unit :=
  fun s => (Ok tt, (upd_model m (fst s), snd s)).

Definition set_storage (st : Storage) : M St unit :=
  fun s => (Ok tt, (upd_storage st (fst s), snd s)).

Definition set_is_fitted_model (b : bool) : M St unit :=
  fun s => (Ok tt, (upd_is_fitted_model b (fst s), snd s)).

(** [with storage.open(path, mode) as f: body f]: the stream is left
    through [__exit__] on both exits; an exception of the body is raised
    again afterwards unless [__exit__] itself raises. *)
Definition with_open {A : Type} (st : Storage) (path mode : string)
  (body : stream -> M St A) : M St A :=
  f <- liftW (io_call (IoOpen st path mode) (storage_open st path mode)) ;;
  fun s =>
    match body f s with
    | (Ok a, s') => (liftW (io_call IoExit (stream_exit f)) ;;; ret a) s'
    | (Raise e, s') => (liftW (io_call IoExit (stream_exit f)) ;;; raise e) s'
    end.

(** *** FitActionExample.is_fitted *)
Definition is_fitted (self : FitActionExample) : bool := is_fitted_model self.

(** *** FitActionExample._save_state *)
Definition _save_state : M St unit :=
  self <- get_self ;;
  with_open (storage self) (model_path self) "wb"
    (fun fout =>
       self <- get_self ;;
       liftW (io_call (IoDump (model self)) (pickle_dump (model self) fout))).

(** *** FitActionExample._load_state *)
Definition _load_state : M St unit :=
  self <- get_self ;;
  with_open (storage self) (model_path self) "rb"
    (fun fin =>
       blob <- liftW (io_call IoRead (stream_read fin)) ;;
       m <- lift_result (pickle_loads blob) ;;
       set_model m) ;;;
  set_is_fitted_model true.

(** *** FitActionExample.__init__

    [super().__init__] only stores its arguments.  The attributes assigned
    before [_get_storage] returns are not observable when it raises, since
    then no object is handed to the caller. *)
Definition __init__ : M World FitActionExample :=
  fun w =>
    match _get_storage "" w with
    | (Raise e, w1) => (Raise e, w1)
    | (Ok st, w1) =>
        let self := {| model := FittedMLModel.mk [];
                       storage := st;
                       model_path := "model.pkl";
                       is_fitted_model := false |} in
        match try_except _load_state is_KeyError
                (fun e => liftW (LOGGER_error "Unable to load saved state, error message: " e))
                (self, w1) with
        | (Ok _, (self', w')) => (Ok self', w')
        | (Raise e, (_, w')) => (Raise e, w')
        end
    end.

(** *** FitActionExample.fit

    The body of the [try] block. *)
Definition fit_body (texts : iterable) : M St unit :=
  d <- lift_result (_prepare_model_data texts) ;;
  set_model (FittedMLModel.mk d) ;;;
  _save_state ;;;
  set_is_fitted_model true.

(** Of its arguments, [fit] reads [train_data.texts] and [model_dir]. *)
Definition fit (texts : iterable) (model_dir : string) : M St unit :=
  st <- liftW (_get_storage model_dir) ;;
  set_storage st ;;;
  try_except (fit_body texts) is_Exception
    (fun e => liftW (LOGGER_error "Fit execution error: " e)).

(** *** FitActionExample.predict

    [predict] reads [self.model] and changes nothing. *)
Fixpoint predict_loop (self : FitActionExample) (texts : iterable)
  (result_list : list Items) : result (list Items) :=
  match texts with
  | StopIteration => Ok result_list
  | Next text rest =>
      if negb (FittedMLModel.has_data (model self) (PStr text))
      then Raise (ValueError "No such id here, try 0 or 1")
      else
        match FittedMLModel.predict (model self) (PStr text) with
        | Raise e => Raise e
        | Ok predict_result =>
            let item_list := [mkItem (py_str (PStr predict_result))] in
            predict_loop self rest (result_list ++ [mkItems item_list])
        end
  | NextRaises e => Raise e
  end.

Definition predict (self : FitActionExample) (texts : iterable) : result ItemsCollection :=
  match predict_loop self texts [] with
  | Ok result_list => Ok (mkItemsCollection result_list)
  | Raise e => Raise e
  end.

(** *** FitActionExample.prune_state *)
Definition prune_state (model_dir : string) : M St unit :=
  remove_path <- (if Nat.ltb 0 (String.length model_dir)
                  then ret model_dir
                  else liftW (env "MLP_STORAGE_DIR" None)) ;;
  storage <- liftW (_get_storage remove_path) ;;
  self <- get_self ;;
  liftW (io_call (IoRemove storage (model_path self))
           (storage_remove storage (model_path self))).

End Controller.

(** ** An in-memory SDK

    A small backend on which the controller can be run: the environment is
    an association list, blobs live in one table keyed by root and name,
    pickling is the identity.  Opening a missing blob for reading raises
    [KeyError]; nothing can be written under the root ["/readonly"]. *)

Module Mem.

Record fs : Type := mkFs {
  environ : list (string * string);
  blobs : list (string * FittedMLModel.t)
}.

Fixpoint assoc {A : Type} (k : string) (l : list (string * A)) : option A :=
  match l with
  | [] => None
  | (k', a) :: l' => if String.eqb k k' then Some a else assoc k l'
  end.

Fixpoint assoc_remove {A : Type} (k : string) (l : list (string * A)) : list (string * A) :=
  match l with
  | [] => []
  | (k', a) :: l' => if String.eqb k k' then assoc_remove k l' else (k', a) :: assoc_remove k l'
  end.

Definition blob_key (st : Storage) (path : string) : string :=
  match st with
  | LocalStorage root => root ++ "/" ++ path
  | S3Storage bucket data_dir _ _ _ _ _ => "s3://" ++ bucket ++ "/" ++ data_dir ++ "/" ++ path
  end.

Definition getenv (name : string) (default : option string) (x : fs) : result string :=
  match assoc name (environ x) with
  | Some v => Ok v
  | None =>
      match default with
      | Some d => Ok d
      | None => Raise (OtherException "RuntimeError" ("missing environment variable " ++ name))
      end
  end.

Definition setenv (name v : string) (x : fs) : fs :=
  {| environ := (name, v) :: environ x; blobs := blobs x |}.

Definition open_ (st : Storage) (path mode : string) (x : fs) : result string * fs :=
  if String.eqb mode "wb" then
    if String.eqb (storage_dir_of st) "/readonly"
    then (Raise (OtherException "PermissionError" (blob_key st path)), x)
    else (Ok (blob_key st path), x)
  else
    match assoc (blob_key st path) (blobs x) with
    | Some _ => (Ok (blob_key st path), x)
    | None => (Raise (KeyError (PStr (blob_key st path))), x)
    end.

Definition read (f : string) (x : fs) : result FittedMLModel.t * fs :=
  match assoc f (blobs x) with
  | Some m => (Ok m, x)
  | None => (Raise (OtherException "OSError" f), x)
  end.

Definition dump (m : FittedMLModel.t) (f : string) (x : fs) : result unit * fs :=
  (Ok tt, {| environ := environ x; blobs := (f, m) :: assoc_remove f (blobs x) |}).

Definition remove (st : Storage) (path : string) (x : fs) : result unit * fs :=
  match assoc (blob_key st path) (blobs x) with
  | Some _ => (Ok tt, {| environ := environ x;
                         blobs := assoc_remove (blob_key st path) (blobs x) |})
  | None => (Raise (KeyError (PStr (blob_key st path))), x)
  end.

Definition sdk : SDK := {|
  ext := fs;
  stream := string;
  bytes := FittedMLModel.t;
  LocalStorage_name := "local";
  S3Storage_name := "s3";
  get_env := getenv;
  storage_init := fun _ x => (Ok tt, x);
  storage_open := open_;
  stream_read := read;
  stream_exit := fun _ x => (Ok tt, x);
  pickle_dump := dump;
  pickle_loads := fun b => Ok b;
  storage_remove := remove
|}.

(** The same backend, except that leaving a stream always raises. *)
Definition sdk_exit_fails : SDK := {|
  ext := fs;
  stream := string;
  bytes := FittedMLModel.t;
  LocalStorage_name := "local";
  S3Storage_name := "s3";
  get_env := getenv;
  storage_init := fun _ x => (Ok tt, x);
  storage_open := open_;
  stream_read := read;
  stream_exit := fun f x => (Raise (OtherException "OSError" f), x);
  pickle_dump := dump;
  pickle_loads := fun b => Ok b;
  storage_remove := remove
|}.

(** A fresh process: the given environment, no blob, nothing logged. *)
Definition boot (environ : list (string * string)) : @World sdk :=
  @mkWorld sdk (mkFs environ []) [] [].

Definition local_env (root : string) : list (string * string) :=
  [("MLP_STORAGE_TYPE", "local"); ("MLP_STORAGE_DIR", root)].

(** The environment is edited from outside between two calls. *)
Definition setenv_world (name v : string) (w : @World sdk) : @World sdk :=
  @mkWorld sdk (setenv name v (w_ext w)) (w_io w) (w_log w).

(** A process started on a root that already holds the blob [m]. *)
Definition boot_stored (root : string) (m : FittedMLModel.t) : @World sdk :=
  @mkWorld sdk (mkFs (local_env root) [(root ++ "/model.pkl", m)]) [] [].

(** The controller as [__init__] leaves it on an empty local root. *)
Definition fresh (root : string) : @FitActionExample :=
  {| model := FittedMLModel.mk [];
     storage := LocalStorage root;
     model_path := "model.pkl";
     is_fitted_model := false |}.

End Mem.

(** ** Further notions used by the properties below *)

(** The iterable that yields the elements of [l] and then goes on as
    [tail]; with [tail := NextRaises e] it fails after [l]. *)
Fixpoint iter_then (l : list string) (tail : iterable) : iterable :=
  match l with
  | [] => tail
  | x :: l' => Next x (iter_then l' tail)
  end.

Section Lifecycle.

Context {sdk : SDK}.

(** The controllers a host can hold: the object [__init__] returned, as
    it is after any number of calls of [fit] and [prune_state], each made
    in an arbitrary world and whatever its outcome. *)
Inductive reachable : FitActionExample -> Prop :=
| reach_init (w w' : World) (self : FitActionExample) :
    __init__ w = (Ok self, w') ->
    reachable self
| reach_fit (self self' : FitActionExample) (w w' : World)
    (texts : iterable) (model_dir : string) (r : result unit) :
    reachable self ->
    fit texts model_dir (self, w) = (r, (self', w')) ->
    reachable self'
| reach_prune (self self' : FitActionExample) (w w' : World)
    (model_dir : string) (r : result unit) :
    reachable self ->
    prune_state model_dir (self, w) = (r, (self', w')) ->
    reachable self'.

End Lifecycle.

(** * Properties *)

Unset Implicit Arguments.
Open Scope list_scope.

(** ** Keys and dicts *)

Example str_nat_0 : str_nat 0 = "0".
Proof. reflexivity. Qed.

Example str_nat_10 : str_nat 10 = "10".
Proof. reflexivity. Qed.

Example str_nat_407 : str_nat 407 = "407".
Proof. reflexivity. Qed.

Lemma str_nat_inj (i j : nat) : str_nat i = str_nat j -> i = j.
Proof.
  unfold str_nat. intro H.
  apply Unsigned.to_uint_inj.
  assert (E : Some (Nat.to_uint i) = Some (Nat.to_uint j)).
  { rewrite <- !NilEmpty.usu. now rewrite H. }
  now injection E.
Qed.

Lemma pyobj_eqb_eq (a b : pyobj) : pyobj_eqb a b = true <-> a = b.
Proof.
  destruct a as [s|z], b as [s'|z']; simpl; split; intro H;
    try discriminate; try congruence.
  - apply String.eqb_eq in H. now subst.
  - injection H as ->. apply String.eqb_refl.
  - apply Z.eqb_eq in H. now subst.
  - injection H as ->. apply Z.eqb_refl.
Qed.

Lemma dict_set_fresh (k : pyobj) (v : string) (d : dict) :
  dict_get k d = None -> dict_set k v d = d ++ [(k, v)].
Proof.
  induction d as [|[k' v'] d IH]; simpl; [reflexivity|].
  destruct (pyobj_eqb k k'); [discriminate|].
  intro H. now rewrite IH.
Qed.

Lemma dict_get_app_fresh (k : pyobj) (d d' : dict) :
  dict_get k d = None -> dict_get k (d ++ d') = dict_get k d'.
Proof.
  induction d as [|[k' v'] d IH]; simpl; [reflexivity|].
  destruct (pyobj_eqb k k'); [discriminate|exact IH].
Qed.

Lemma indexed_from_cons (n : nat) (t : string) (texts : list string) :
  indexed_from n (t :: texts) = (PStr (str_nat n), t) :: indexed_from (S n) texts.
Proof. reflexivity. Qed.

Lemma indexed_from_lookup (texts : list string) :
  forall start i,
    dict_get (PStr (str_nat (start + i))) (indexed_from start texts) = nth_error texts i.
Proof.
  induction texts as [|t texts IH]; intros start i.
  - now destruct i.
  - rewrite indexed_from_cons. simpl.
    destruct i as [|i].
    + now rewrite Nat.add_0_r, String.eqb_refl.
    + destruct (String.eqb (str_nat (start + S i)) (str_nat start)) eqn:E.
      * apply String.eqb_eq, str_nat_inj in E. lia.
      * replace (start + S i) with (S start + i) by lia. apply IH.
Qed.

Lemma indexed_from_keys (texts : list string) (start : nat) :
  dict_keys (indexed_from start texts)
  = map (fun i => PStr (str_nat i)) (seq start (length texts)).
Proof.
  unfold dict_keys, indexed_from.
  revert start. induction texts as [|t texts IH]; intro start; simpl; [reflexivity|].
  now rewrite IH.
Qed.

Lemma indexed_from_values (texts : list string) (start : nat) :
  map snd (indexed_from start texts) = texts.
Proof.
  unfold indexed_from.
  revert start. induction texts as [|t texts IH]; intro start; simpl; [reflexivity|].
  now rewrite IH.
Qed.

Lemma index_keys_NoDup (start len : nat) :
  NoDup (map (fun i => PStr (str_nat i)) (seq start len)).
Proof.
  apply Injective_map_NoDup; [|apply seq_NoDup].
  intros i j H. injection H as H. now apply str_nat_inj.
Qed.

(** The loop of [_prepare_model_data], started at position [n] on a dict
    that holds no key of a position from [n] on, appends one entry per
    text. *)
Lemma prepare_loop_list (texts : list string) :
  forall n d,
    (forall j, n <= j -> dict_get (PStr (str_nat j)) d = None) ->
    prepare_loop n (iter_of_list texts) d = Ok (d ++ indexed_from n texts).
Proof.
  induction texts as [|t texts IH]; intros n d Hd; simpl.
  - now rewrite app_nil_r.
  - rewrite dict_set_fresh by (apply Hd; lia).
    rewrite IH.
    + rewrite indexed_from_cons, <- app_assoc. reflexivity.
    + intros j Hj. rewrite dict_get_app_fresh by (apply Hd; lia).
      simpl. destruct (String.eqb (str_nat j) (str_nat n)) eqn:E; [|reflexivity].
      apply String.eqb_eq, str_nat_inj in E. lia.
Qed.

Lemma prepare_model_data_list (texts : list string) :
  _prepare_model_data (iter_of_list texts) = Ok (build_spec texts).
Proof.
  unfold _prepare_model_data, build_spec.
  now rewrite prepare_loop_list.
Qed.

Lemma build_spec_lookup (texts : list string) (i : nat) :
  dict_get (PStr (str_nat i)) (build_spec texts) = nth_error texts i.
Proof. exact (indexed_from_lookup texts 0 i). Qed.

(** C7: building the model data from an ordered sequence of texts always
    returns, and returns exactly the mapping of the specification: the
    keys are the decimal strings of the positions 0, 1, ..., in that
    order and without repetition, and the values are the texts as given,
    in input order, duplicates included. *)
Theorem prepare_model_data_is_index_mapping (texts : list string) :
  _prepare_model_data (iter_of_list texts) = Ok (build_spec texts)
  /\ dict_keys (build_spec texts)
     = map (fun i => PStr (str_nat i)) (seq 0 (length texts))
  /\ map snd (build_spec texts) = texts
  /\ NoDup (dict_keys (build_spec texts)).
Proof.
  split; [apply prepare_model_data_list|].
  unfold build_spec. rewrite indexed_from_keys, indexed_from_values.
  repeat split. apply index_keys_NoDup.
Qed.

(** ** FittedMLModel *)

Lemma model_predict_str (m : FittedMLModel.t) (key : string) :
  FittedMLModel.predict m (PStr key)
  = Ok (match dict_get (PStr key) (FittedMLModel.data m) with
        | Some v => v
        | None => FittedMLModel.placeholder
        end).
Proof.
  unfold FittedMLModel.predict, dict_contains, dict_getitem. simpl.
  now destruct (dict_get (PStr key) (FittedMLModel.data m)).
Qed.

(** C8: [FittedMLModel.predict] returns the mapped value when the (string)
    key is present, and for every argument on which [has_data] is false
    it returns the placeholder sentence instead of failing. *)
Theorem model_predict_value_or_placeholder (m : FittedMLModel.t) :
  (forall (key v : string),
      dict_get (PStr key) (FittedMLModel.data m) = Some v ->
      FittedMLModel.predict m (PStr key) = Ok v)
  /\ (forall index : pyobj,
         FittedMLModel.has_data m index = false ->
         FittedMLModel.predict m index
         = Ok "No such sentence in the original dataset").
Proof.
  split.
  - intros key v H. now rewrite model_predict_str, H.
  - intros index H. unfold FittedMLModel.predict.
    unfold FittedMLModel.has_data in H. now rewrite H.
Qed.

(** On the model fitted from "a", "b": the key "1" yields "b", the
    integer 1 is not a key and yields the placeholder. *)
Lemma model_predict_value_or_placeholder_witness :
  FittedMLModel.predict (FittedMLModel.mk [(PStr "0", "a"); (PStr "1", "b")]) (PStr "1")
  = Ok "b"
  /\ FittedMLModel.predict (FittedMLModel.mk [(PStr "0", "a"); (PStr "1", "b")]) (PInt 1)
     = Ok "No such sentence in the original dataset".
Proof.
  destruct (model_predict_value_or_placeholder
              (FittedMLModel.mk [(PStr "0", "a"); (PStr "1", "b")])) as [Hv Hp].
  split.
  - apply Hv. reflexivity.
  - apply Hp. reflexivity.
Defined.

(** C10: for a string key, the object tested for membership and the key
    looked up ([str(index)]) are the same, so [FittedMLModel.predict] never
    raises on it: the result is the stored value, or the placeholder when
    there is none. *)
Theorem model_predict_total_on_strings (m : FittedMLModel.t) (k : string) :
  PStr (py_str (PStr k)) = PStr k
  /\ exists v : string,
       FittedMLModel.predict m (PStr k) = Ok v
       /\ (dict_get (PStr k) (FittedMLModel.data m) = Some v
           \/ (dict_get (PStr k) (FittedMLModel.data m) = None
               /\ v = FittedMLModel.placeholder)).
Proof.
  split; [reflexivity|].
  rewrite model_predict_str.
  destruct (dict_get (PStr k) (FittedMLModel.data m)) as [v|].
  - exists v. split; [reflexivity|now left].
  - exists FittedMLModel.placeholder. split; [reflexivity|now right].
Qed.

(** The restriction to strings matters: under an [int] key the membership
    test succeeds and the lookup of its decimal string raises. *)
Example model_predict_int_key_raises :
  FittedMLModel.predict (FittedMLModel.mk [(PInt 1, "a")]) (PInt 1)
  = Raise (KeyError (PStr "1")).
Proof. reflexivity. Qed.

(** ** FitActionExample.predict *)

Lemma has_data_get (m : FittedMLModel.t) (k : pyobj) :
  FittedMLModel.has_data m k = true <-> exists v, dict_get k (FittedMLModel.data m) = Some v.
Proof.
  unfold FittedMLModel.has_data, dict_contains.
  destruct (dict_get k (FittedMLModel.data m)) as [v|]; split.
  - intros _. now exists v.
  - reflexivity.
  - discriminate.
  - intros [v H]. discriminate.
Qed.

(** One step of the loop on a text the model holds. *)
Lemma predict_loop_step (self : FitActionExample) (text v : string)
  (rest : iterable) (acc : list Items) :
  dict_get (PStr text) (FittedMLModel.data (model self)) = Some v ->
  predict_loop self (Next text rest) acc
  = predict_loop self rest (acc ++ [mkItems [mkItem v]]).
Proof.
  intro H. simpl.
  assert (Hh : FittedMLModel.has_data (model self) (PStr text) = true)
    by (apply has_data_get; now exists v).
  rewrite Hh, model_predict_str, H. reflexivity.
Qed.

(** On texts that are all keys of the model the loop produces one result
    group per text, in order. *)
Lemma predict_loop_present (self : FitActionExample) (texts vs : list string) :
  Forall2 (fun x v => dict_get (PStr x) (FittedMLModel.data (model self)) = Some v) texts vs ->
  forall acc,
    predict_loop self (iter_of_list texts) acc
    = Ok (acc ++ map (fun v => mkItems [mkItem v]) vs).
Proof.
  induction 1 as [|x v texts vs Hx _ IH]; intro acc; simpl iter_of_list.
  - simpl. now rewrite app_nil_r.
  - rewrite (predict_loop_step self x v (iter_of_list texts) acc Hx).
    rewrite IH, <- app_assoc. reflexivity.
Qed.

(** The loop stops at the first text the model does not hold, whatever
    was accumulated and whatever follows. *)
Lemma predict_loop_absent (self : FitActionExample) (pre : list string) (t : string)
  (post : list string) :
  forallb (fun x => FittedMLModel.has_data (model self) (PStr x)) pre = true ->
  FittedMLModel.has_data (model self) (PStr t) = false ->
  forall acc,
    predict_loop self (iter_of_list (pre ++ t :: post)) acc
    = Raise (ValueError "No such id here, try 0 or 1").
Proof.
  induction pre as [|x pre IH]; intros Hpre Ht acc.
  - simpl. now rewrite Ht.
  - simpl in Hpre. apply andb_true_iff in Hpre as [Hx Hpre].
    apply has_data_get in Hx as [v Hv].
    simpl app. simpl iter_of_list.
    rewrite (predict_loop_step self x v _ _ Hv).
    now apply IH.
Qed.

(** C3 (amended): [predict] checks the texts in order; at the first text
    the model does not hold it raises [ValueError] with the fixed message
    'No such id here, try 0 or 1' and returns no result group at all,
    whatever the texts before and after it. *)
Theorem predict_raises_at_first_absent_text (self : FitActionExample)
  (pre : list string) (t : string) (post : list string) :
  forallb (fun x => FittedMLModel.has_data (model self) (PStr x)) pre = true ->
  FittedMLModel.has_data (model self) (PStr t) = false ->
  predict self (iter_of_list (pre ++ t :: post))
  = Raise (ValueError "No such id here, try 0 or 1").
Proof.
  intros Hpre Ht. unfold predict.
  now rewrite predict_loop_absent.
Qed.

(** On the model fitted from "a", "b": in the batch "0", "1", "b", "0"
    the third text is the first that is no key. *)
Lemma predict_raises_at_first_absent_text_witness :
  predict (upd_model (FittedMLModel.mk (build_spec ["a"; "b"])) (Mem.fresh "/tmp/m"))
    (iter_of_list (["0"; "1"] ++ "b" :: ["0"]))
  = Raise (ValueError "No such id here, try 0 or 1").
Proof.
  apply (predict_raises_at_first_absent_text
           (upd_model (FittedMLModel.mk (build_spec ["a"; "b"])) (Mem.fresh "/tmp/m"))
           ["0"; "1"] "b" ["0"]).
  - reflexivity.
  - reflexivity.
Defined.

(** C3 (as stated, refuted): on the model fitted from "a", "b" the text
    "z" is absent; the error [predict] raises carries the fixed message,
    in which "z" does not occur. *)
Lemma predict_error_does_not_cite_text :
  predict (upd_model (FittedMLModel.mk (build_spec ["a"; "b"])) (Mem.fresh "/tmp/m"))
    (iter_of_list ["z"])
  = Raise (ValueError "No such id here, try 0 or 1")
  /\ String.index 0 "z" "No such id here, try 0 or 1" = None.
Proof. split; reflexivity. Qed.

(** When every text is a key, there is one result group per text, in
    input order, each wrapping the single mapped value. *)
Lemma predict_all_present (self : FitActionExample) (texts vs : list string) :
  Forall2 (fun x v => dict_get (PStr x) (FittedMLModel.data (model self)) = Some v) texts vs ->
  predict self (iter_of_list texts)
  = Ok (mkItemsCollection (map (fun v => mkItems [mkItem v]) vs)).
Proof.
  intro H. unfold predict. now rewrite (predict_loop_present self texts vs H).
Qed.

(** ** The lifecycle controller over an arbitrary SDK *)

Section ControllerFacts.

Context {sdk : SDK}.

Lemma length_zero_iff_empty (s : string) :
  Nat.eqb (String.length s) 0 = true <-> s = "".
Proof.
  destruct s; simpl; split; intro H; try reflexivity; discriminate.
Qed.

(** [fit], with its exits spelled out. *)
Lemma fit_unfold (texts : iterable) (model_dir : string)
  (self : FitActionExample) (w : World) :
  fit texts model_dir (self, w)
  = match _get_storage model_dir w with
    | (Raise e, w1) => (Raise e, (self, w1))
    | (Ok st, w1) =>
        match fit_body texts (upd_storage st self, w1) with
        | (Ok _, s') => (Ok tt, s')
        | (Raise e, (self2, w2)) =>
            if is_Exception e
            then (Ok tt, (self2, logged "Fit execution error: " e w2))
            else (Raise e, (self2, w2))
        end
    end.
Proof.
  unfold fit, bind, liftW, set_storage, try_except, LOGGER_error.
  simpl.
  destruct (_get_storage model_dir w) as [[st|e] w1]; simpl; [|reflexivity].
  destruct (fit_body texts (upd_storage st self, w1)) as [[[]|e] [self2 w2]];
    [reflexivity|].
  now destruct (is_Exception e).
Qed.

(** The [try] block of [fit], with its exits spelled out. *)
Lemma fit_body_unfold (texts : iterable) (s : St) :
  fit_body texts s
  = match _prepare_model_data texts with
    | Raise e => (Raise e, s)
    | Ok d =>
        match _save_state (upd_model (FittedMLModel.mk d) (fst s), snd s) with
        | (Ok _, s2) => (Ok tt, (upd_is_fitted_model true (fst s2), snd s2))
        | (Raise e, s2) => (Raise e, s2)
        end
    end.
Proof.
  unfold fit_body, bind, lift_result, set_model, set_is_fitted_model.
  destruct (_prepare_model_data texts) as [d|e]; [|reflexivity].
  destruct (_save_state (upd_model (FittedMLModel.mk d) (fst s), snd s))
    as [[[]|e] s2]; reflexivity.
Qed.

(** [_save_state] writes to the world only. *)
Lemma save_state_self (s : St) : fst (snd (_save_state s)) = fst s.
Proof.
  destruct s as [self w].
  unfold _save_state, with_open, bind, get_self, liftW, io_call, ret, raise.
  simpl.
  destruct (storage_open (storage self) (model_path self) "wb" (w_ext w))
    as [[f|e] x]; simpl; [|reflexivity].
  destruct (pickle_dump (model self) f x) as [[[]|e] x']; simpl;
    destruct (stream_exit f x') as [[[]|e'] x'']; reflexivity.
Qed.

(** When the [try] block of [fit] raises, the fitted flag is the one it
    started from. *)
Lemma fit_body_raise_flag (texts : iterable) (s s2 : St) (e : exn) :
  fit_body texts s = (Raise e, s2) ->
  is_fitted_model (fst s2) = is_fitted_model (fst s).
Proof.
  rewrite fit_body_unfold.
  destruct (_prepare_model_data texts) as [d|e0].
  - pose proof (save_state_self (upd_model (FittedMLModel.mk d) (fst s), snd s)) as Hs.
    destruct (_save_state (upd_model (FittedMLModel.mk d) (fst s), snd s))
      as [[[]|e1] s3]; [discriminate|].
    intro H. injection H as _ <-. simpl in Hs. now rewrite Hs.
  - intro H. now injection H as _ <-.
Qed.

(** [_load_state], with its exits spelled out: the flag is set on the
    normal exit only. *)
Lemma load_state_flag (s : St) :
  match _load_state s with
  | (Ok _, s') => is_fitted_model (fst s') = true
  | (Raise _, s') => is_fitted_model (fst s') = is_fitted_model (fst s)
  end.
Proof.
  destruct s as [self w].
  unfold _load_state, with_open, bind, get_self, liftW, io_call, ret, raise,
    lift_result, set_model, set_is_fitted_model.
  simpl.
  destruct (storage_open (storage self) (model_path self) "rb" (w_ext w))
    as [[f|e] x]; simpl; [|reflexivity].
  destruct (stream_read f x) as [[b|e] x']; simpl.
  - destruct (pickle_loads b) as [m|e]; simpl;
      destruct (stream_exit f x') as [[[]|e'] x'']; reflexivity.
  - destruct (stream_exit f x') as [[[]|e'] x'']; reflexivity.
Qed.

(** The first thing [_load_state] and [_save_state] do is open the blob
    [self.model_path] on the handle [self.storage]. *)
Lemma load_state_opens (self : FitActionExample) (w : World) :
  exists tl,
    w_io (snd (snd (_load_state (self, w))))
    = w_io w ++ IoOpen (storage self) (model_path self) "rb" :: tl.
Proof.
  unfold _load_state, with_open, bind, get_self, liftW, io_call, ret, raise,
    lift_result, set_model, set_is_fitted_model.
  simpl.
  destruct (storage_open (storage self) (model_path self) "rb" (w_ext w))
    as [[f|e] x]; simpl; [|now exists []].
  destruct (stream_read f x) as [[b|e] x']; simpl.
  - destruct (pickle_loads b) as [m|e]; simpl;
      destruct (stream_exit f x') as [[[]|e'] x'']; simpl;
      rewrite <- !app_assoc; simpl; eexists; reflexivity.
  - destruct (stream_exit f x') as [[[]|e'] x'']; simpl;
      rewrite <- !app_assoc; simpl; eexists; reflexivity.
Qed.

Lemma save_state_opens (self : FitActionExample) (w : World) :
  exists tl,
    w_io (snd (snd (_save_state (self, w))))
    = w_io w ++ IoOpen (storage self) (model_path self) "wb" :: tl.
Proof.
  unfold _save_state, with_open, bind, get_self, liftW, io_call, ret, raise.
  simpl.
  destruct (storage_open (storage self) (model_path self) "wb" (w_ext w))
    as [[f|e] x]; simpl; [|now exists []].
  destruct (pickle_dump (model self) f x) as [[[]|e] x']; simpl;
    destruct (stream_exit f x') as [[[]|e'] x'']; simpl;
    rewrite <- !app_assoc; simpl; eexists; reflexivity.
Qed.

(** With a storage type that names no backend, [_get_storage] raises and
    hands the world back as it received it. *)
Lemma get_storage_invalid_type (w : World) (t model_dir : string) :
  get_env "MLP_STORAGE_TYPE" None (w_ext w) = Ok t ->
  t <> LocalStorage_name ->
  t <> S3Storage_name ->
  _get_storage model_dir w
  = match resolved_dir model_dir w with
    | Ok _ => (Raise (ValueError ("storage_type " ++ t ++ " is invalid.")%string), w)
    | Raise e => (Raise e, w)
    end.
Proof.
  intros Ht Hl Hs.
  unfold _get_storage, resolved_dir, bind, env, ret, raise. rewrite Ht.
  apply String.eqb_neq in Hl, Hs.
  destruct (Nat.eqb (String.length model_dir) 0).
  - destruct (get_env "MLP_STORAGE_DIR" None (w_ext w)) as [d|e]; [|reflexivity].
    now rewrite Hl, Hs.
  - now rewrite Hl, Hs.
Qed.

(** A handle returned by [_get_storage] is rooted at the resolved
    directory. *)
Lemma get_storage_root (w w1 : World) (model_dir : string) (st : Storage) :
  _get_storage model_dir w = (Ok st, w1) ->
  resolved_dir model_dir w = Ok (storage_dir_of st).
Proof.
  unfold _get_storage, resolved_dir, bind, env, ret, raise, io_call.
  destruct (get_env "MLP_STORAGE_TYPE" None (w_ext w)) as [t|e]; [|discriminate].
  destruct (Nat.eqb (String.length model_dir) 0);
    [destruct (get_env "MLP_STORAGE_DIR" None (w_ext w)) as [d|e]; [|discriminate]|];
    (destruct (String.eqb t LocalStorage_name);
     [ match goal with
       | |- context [storage_init ?h ?x] =>
           destruct (storage_init h x) as [[[]|e] x']
       end;
       intro H; [|discriminate]; now injection H as <- _
     | destruct (String.eqb t S3Storage_name); [|discriminate];
       destruct (get_env "MLP_S3_BUCKET" None (w_ext w)) as [bucket|e]; [|discriminate];
       destruct (get_env "MLP_S3_REGION" (Some "") (w_ext w)) as [region|e]; [|discriminate];
       destruct (get_env "MLP_S3_ACCESS_KEY" None (w_ext w)) as [ak|e]; [|discriminate];
       destruct (get_env "MLP_S3_SECRET_KEY" None (w_ext w)) as [sk|e]; [|discriminate];
       destruct (get_env "MLP_S3_ENDPOINT" None (w_ext w)) as [ep|e]; [|discriminate];
       match goal with
       | |- context [storage_init ?h ?x] =>
           destruct (storage_init h x) as [[[]|e] x']
       end;
       intro H; [|discriminate]; now injection H as <- _ ]).
Qed.

(** [__init__], with its exits spelled out. *)
Lemma init_unfold (w : World) :
  __init__ w
  = match _get_storage "" w with
    | (Raise e, w1) => (Raise e, w1)
    | (Ok st, w1) =>
        match _load_state ({| model := FittedMLModel.mk [];
                              storage := st;
                              model_path := "model.pkl";
                              is_fitted_model := false |}, w1) with
        | (Ok _, (self', w')) => (Ok self', w')
        | (Raise e, (self', w')) =>
            if is_KeyError e
            then (Ok self', logged "Unable to load saved state, error message: " e w')
            else (Raise e, w')
        end
    end.
Proof.
  unfold __init__, try_except, liftW, LOGGER_error.
  destruct (_get_storage "" w) as [[st|e] w1]; [|reflexivity].
  destruct (_load_state _) as [[[]|e] [self' w']]; [reflexivity|].
  now destruct (is_KeyError e).
Qed.

(** After the [try] block of [fit] ran to its end on a list, the model is
    the index mapping of that list and the flag is set. *)
Lemma fit_body_ok (T : list string) (s s' : St) :
  fit_body (iter_of_list T) s = (Ok tt, s') ->
  model (fst s') = FittedMLModel.mk (build_spec T)
  /\ is_fitted_model (fst s') = true.
Proof.
  rewrite fit_body_unfold, prepare_model_data_list.
  pose proof (save_state_self
                (upd_model (FittedMLModel.mk (build_spec T)) (fst s), snd s)) as Hs.
  destruct (_save_state (upd_model (FittedMLModel.mk (build_spec T)) (fst s), snd s))
    as [[[]|e] s2]; [|discriminate].
  intro H. injection H as <-. simpl in *. rewrite Hs. now split.
Qed.

(** C1 (amended): after [fit(T)] succeeds (the backend is resolved and the
    guarded block runs to its end), [is_fitted] is true and, for every
    position [i] of [T], [predict] on the decimal string of [i] returns a
    single result group wrapping [T[i]]. *)
Theorem fit_then_predict_by_index (T : list string) (model_dir : string)
  (self : FitActionExample) (w w1 : World) (st : Storage) (s' : St) :
  _get_storage model_dir w = (Ok st, w1) ->
  fit_body (iter_of_list T) (upd_storage st self, w1) = (Ok tt, s') ->
  fit (iter_of_list T) model_dir (self, w) = (Ok tt, s')
  /\ is_fitted (fst s') = true
  /\ forall (i : nat) (t : string),
       nth_error T i = Some t ->
       predict (fst s') (iter_of_list [str_nat i])
       = Ok (mkItemsCollection [mkItems [mkItem t]]).
Proof.
  intros Hst Hbody.
  rewrite fit_unfold, Hst, Hbody.
  destruct (fit_body_ok T _ _ Hbody) as [Hm Hf].
  repeat split; [exact Hf|].
  intros i t Hi.
  apply (predict_all_present (fst s') [str_nat i] [t]).
  constructor; [|constructor].
  now rewrite Hm, <- Hi, <- build_spec_lookup.
Qed.

(** C2 (amended): [fit] raises to its caller in two cases only.  Either
    the backend resolution that precedes the guarded block raised, and then
    nothing of [self] has changed; or the guarded block raised an
    exception of a class not derived from [Exception] (KeyboardInterrupt,
    SystemExit), which passes [except Exception] unlogged.  Every
    exception derived from [Exception] that the model build or the
    persistence raises is caught and logged, and [fit] returns normally.
    Whenever the block raised, the fitted flag is the one from before the
    call. *)
Theorem fit_catches_exceptions_of_guarded_block (texts : iterable)
  (model_dir : string) (self : FitActionExample) (w : World) :
  (forall e w1,
      _get_storage model_dir w = (Raise e, w1) ->
      fit texts model_dir (self, w) = (Raise e, (self, w1)))
  /\ (forall st w1,
         _get_storage model_dir w = (Ok st, w1) ->
         (forall s',
             fit_body texts (upd_storage st self, w1) = (Ok tt, s') ->
             fit texts model_dir (self, w) = (Ok tt, s'))
         /\ (forall e self2 w2,
                fit_body texts (upd_storage st self, w1) = (Raise e, (self2, w2)) ->
                is_fitted self2 = is_fitted self
                /\ (is_Exception e = true ->
                    fit texts model_dir (self, w)
                    = (Ok tt, (self2, logged "Fit execution error: " e w2)))
                /\ (is_Exception e = false ->
                    fit texts model_dir (self, w) = (Raise e, (self2, w2))))).
Proof.
  split.
  - intros e w1 H. now rewrite fit_unfold, H.
  - intros st w1 H. rewrite fit_unfold, H. split.
    + intros s' Hb. now rewrite Hb.
    + intros e self2 w2 Hb. rewrite Hb. split; [|split].
      * apply fit_body_raise_flag in Hb. exact Hb.
      * intro He. now rewrite He.
      * intro He. now rewrite He.
Qed.

(** C4: [fit] assigns the new model only once it is built.  When the
    build raises, the model held before and the fitted flag are kept; when
    the build succeeds and the persistence raises, the controller holds
    the new model and the fitted flag is still the one from before.  In
    both cases [fit] returns normally if the exception derives from
    [Exception] and raises it otherwise. *)
Theorem fit_replaces_model_after_build (texts : iterable) (model_dir : string)
  (self : FitActionExample) (w w1 : World) (st : Storage) :
  _get_storage model_dir w = (Ok st, w1) ->
  (forall e,
      _prepare_model_data texts = Raise e ->
      exists self' w',
        fit texts model_dir (self, w)
        = ((if is_Exception e then Ok tt else Raise e), (self', w'))
        /\ model self' = model self
        /\ is_fitted self' = is_fitted self)
  /\ (forall d e s2,
         _prepare_model_data texts = Ok d ->
         _save_state (upd_model (FittedMLModel.mk d) (upd_storage st self), w1)
         = (Raise e, s2) ->
         exists self' w',
           fit texts model_dir (self, w)
           = ((if is_Exception e then Ok tt else Raise e), (self', w'))
           /\ model self' = FittedMLModel.mk d
           /\ is_fitted self' = is_fitted self).
Proof.
  intro Hst. split.
  - intros e Hb. rewrite fit_unfold, Hst, fit_body_unfold, Hb.
    destruct (is_Exception e); eexists; eexists;
      (split; [reflexivity|]); now split.
  - intros d e [self2 w2] Hb Hsave.
    pose proof (save_state_self
                  (upd_model (FittedMLModel.mk d) (upd_storage st self), w1)) as Hs.
    rewrite Hsave in Hs. simpl in Hs.
    rewrite fit_unfold, Hst, fit_body_unfold, Hb. simpl fst; simpl snd.
    rewrite Hsave.
    destruct (is_Exception e); eexists; eexists;
      (split; [reflexivity|]); now rewrite Hs.
Qed.

(** Once its backend is resolved, [__init__] goes on to open the saved
    blob for reading, whatever comes of it. *)
Lemma init_attempts_load (w w1 : World) (st : Storage) :
  _get_storage "" w = (Ok st, w1) ->
  exists tl,
    w_io (snd (__init__ w)) = w_io w1 ++ IoOpen st "model.pkl" "rb" :: tl.
Proof.
  intro Hst. rewrite init_unfold, Hst.
  destruct (load_state_opens
              {| model := FittedMLModel.mk []; storage := st;
                 model_path := "model.pkl"; is_fitted_model := false |} w1)
    as [tl Htl].
  exists tl.
  destruct (_load_state _) as [[[]|e] [self' w']]; [exact Htl|].
  destruct (is_KeyError e); exact Htl.
Qed.

(** C5: construction, once its backend is resolved, tries to load the
    saved state (it opens the blob "model.pkl" for reading).  When the
    load raises a [KeyError], construction logs, returns normally and the
    controller is not fitted; when the load succeeds the controller starts
    fitted. *)
Theorem init_restores_or_starts_unfitted (w w1 : World) (st : Storage) :
  _get_storage "" w = (Ok st, w1) ->
  (exists tl,
      w_io (snd (__init__ w)) = w_io w1 ++ IoOpen st "model.pkl" "rb" :: tl)
  /\ (forall e self2 w2,
         _load_state ({| model := FittedMLModel.mk [];
                         storage := st;
                         model_path := "model.pkl";
                         is_fitted_model := false |}, w1)
         = (Raise e, (self2, w2)) ->
         is_KeyError e = true ->
         __init__ w
         = (Ok self2, logged "Unable to load saved state, error message: " e w2)
         /\ is_fitted self2 = false)
  /\ (forall self2 w2,
         _load_state ({| model := FittedMLModel.mk [];
                         storage := st;
                         model_path := "model.pkl";
                         is_fitted_model := false |}, w1)
         = (Ok tt, (self2, w2)) ->
         __init__ w = (Ok self2, w2) /\ is_fitted self2 = true).
Proof.
  intro Hst. split; [exact (init_attempts_load w w1 st Hst)|]. split.
  - intros e self2 w2 Hl Hk.
    pose proof (load_state_flag
                  ({| model := FittedMLModel.mk []; storage := st;
                      model_path := "model.pkl"; is_fitted_model := false |}, w1)) as Hf.
    rewrite init_unfold, Hst, Hl, Hk. rewrite Hl in Hf. now split.
  - intros self2 w2 Hl.
    pose proof (load_state_flag
                  ({| model := FittedMLModel.mk []; storage := st;
                      model_path := "model.pkl"; is_fitted_model := false |}, w1)) as Hf.
    rewrite init_unfold, Hst, Hl. rewrite Hl in Hf. now split.
Qed.

(** C6: when the storage type read from the environment names neither
    backend, resolving a backend raises and leaves the world untouched: no
    backend is built and no storage call is recorded.  The error is the
    [ValueError] 'storage_type ... is invalid.', unless the lookup of the
    storage directory (made first, for an empty override) raised already.
    Construction, [fit] and [prune_state] fail the same way. *)
Theorem invalid_storage_type_raises_before_io (w : World) (t : string) :
  get_env "MLP_STORAGE_TYPE" None (w_ext w) = Ok t ->
  t <> LocalStorage_name ->
  t <> S3Storage_name ->
  (forall model_dir,
      exists e,
        _get_storage model_dir w = (Raise e, w)
        /\ (e = ValueError ("storage_type " ++ t ++ " is invalid.")%string
            \/ (model_dir = ""
                /\ get_env "MLP_STORAGE_DIR" None (w_ext w) = Raise e)))
  /\ (exists e, __init__ w = (Raise e, w))
  /\ (forall texts model_dir self,
         exists e, fit texts model_dir (self, w) = (Raise e, (self, w)))
  /\ (forall model_dir self,
         exists e, prune_state model_dir (self, w) = (Raise e, (self, w))).
Proof.
  intros Ht Hl Hs.
  assert (Hg : forall model_dir, exists e,
               _get_storage model_dir w = (Raise e, w)
               /\ (e = ValueError ("storage_type " ++ t ++ " is invalid.")%string
                   \/ (model_dir = ""
                       /\ get_env "MLP_STORAGE_DIR" None (w_ext w) = Raise e))).
  { intro model_dir.
    rewrite (get_storage_invalid_type w t model_dir Ht Hl Hs).
    unfold resolved_dir.
    destruct (Nat.eqb (String.length model_dir) 0) eqn:El.
    - apply length_zero_iff_empty in El.
      destruct (get_env "MLP_STORAGE_DIR" None (w_ext w)) as [d|e] eqn:Ed.
      + eexists. split; [reflexivity|now left].
      + exists e. split; [reflexivity|right; now split].
    - eexists. split; [reflexivity|now left]. }
  split; [exact Hg|]. split; [|split].
  - destruct (Hg "") as [e [He _]]. exists e.
    now rewrite init_unfold, He.
  - intros texts model_dir self.
    destruct (Hg model_dir) as [e [He _]]. exists e.
    now rewrite fit_unfold, He.
  - intros model_dir self.
    unfold prune_state, bind, liftW, env, ret, get_self, io_call. simpl.
    destruct (Nat.ltb 0 (String.length model_dir)); simpl.
    + destruct (Hg model_dir) as [e [He _]]. exists e. now rewrite He.
    + destruct (get_env "MLP_STORAGE_DIR" None (w_ext w)) as [d|e].
      * destruct (Hg d) as [e [He _]]. exists e. now rewrite He.
      * now exists e.
Qed.

(** C9: [fit] binds [self.storage] to the freshly resolved handle before
    it enters the guarded block.  So whenever the backend is resolved,
    [fit] ends with that handle in place, whether the block failed or
    not ([fit] returns normally, or raises what the block raised when
    that is not derived from [Exception]); the handle is rooted at the
    override, or at the environment's directory when the override is
    empty; and the next [_save_state] and [_load_state] open their blob
    on it. *)
Theorem fit_rebinds_storage_first (texts : iterable) (model_dir : string)
  (self : FitActionExample) (w w1 : World) (st : Storage) :
  _get_storage model_dir w = (Ok st, w1) ->
  resolved_dir model_dir w = Ok (storage_dir_of st)
  /\ exists r self' w',
       fit texts model_dir (self, w) = (r, (self', w'))
       /\ (r = Ok tt \/ exists e, r = Raise e /\ is_Exception e = false)
       /\ storage self' = st
       /\ (exists tl,
              w_io (snd (snd (_save_state (self', w'))))
              = w_io w' ++ IoOpen st (model_path self) "wb" :: tl)
       /\ (exists tl,
              w_io (snd (snd (_load_state (self', w'))))
              = w_io w' ++ IoOpen st (model_path self) "rb" :: tl).
Proof.
  intro Hst. split; [exact (get_storage_root w w1 model_dir st Hst)|].
  rewrite fit_unfold, Hst, fit_body_unfold.
  assert (Hopen : forall self' w',
             storage self' = st -> model_path self' = model_path self ->
             storage self' = st
             /\ (exists tl,
                    w_io (snd (snd (_save_state (self', w'))))
                    = w_io w' ++ IoOpen st (model_path self) "wb" :: tl)
             /\ (exists tl,
                    w_io (snd (snd (_load_state (self', w'))))
                    = w_io w' ++ IoOpen st (model_path self) "rb" :: tl)).
  { intros self' w' Hs Hp. split; [exact Hs|]. rewrite <- Hs, <- Hp.
    split; [apply save_state_opens|apply load_state_opens]. }
  assert (Hcaught : forall e (self2 : FitActionExample) (w2 : World),
             storage self2 = st -> model_path self2 = model_path self ->
             exists r self' w',
               (if is_Exception e
                then (Ok tt, (self2, logged "Fit execution error: " e w2))
                else (Raise e, (self2, w2)))
               = (r, (self', w'))
               /\ (r = Ok tt \/ exists e0, r = Raise e0 /\ is_Exception e0 = false)
               /\ storage self' = st
               /\ (exists tl,
                      w_io (snd (snd (_save_state (self', w'))))
                      = w_io w' ++ IoOpen st (model_path self) "wb" :: tl)
               /\ (exists tl,
                      w_io (snd (snd (_load_state (self', w'))))
                      = w_io w' ++ IoOpen st (model_path self) "rb" :: tl)).
  { intros e self2 w2 Hs Hp. destruct (is_Exception e) eqn:He.
    - do 3 eexists. split; [reflexivity|]. split; [now left|]. now apply Hopen.
    - do 3 eexists. split; [reflexivity|].
      split; [right; now exists e|]. now apply Hopen. }
  destruct (_prepare_model_data texts) as [d|e].
  - simpl fst; simpl snd.
    pose proof (save_state_self
                  (upd_model (FittedMLModel.mk d) (upd_storage st self), w1)) as Hs.
    destruct (_save_state (upd_model (FittedMLModel.mk d) (upd_storage st self), w1))
      as [[[]|e] [self2 w2]]; simpl in Hs; subst self2.
    + do 3 eexists. split; [reflexivity|]. split; [now left|]. now apply Hopen.
    + now apply Hcaught.
  - now apply Hcaught.
Qed.

End ControllerFacts.

(** ** The controller on the in-memory SDK *)

(** C1 (as stated, refuted): a controller is constructed on an empty local
    root and fitted on the one text "a"; the fit succeeds (the blob is
    stored, nothing is logged, the flag is set), and [predict] on that
    very text raises instead of returning it. *)
Lemma fit_then_predict_text_raises :
  exists self0 w0 self1 w1,
    @__init__ Mem.sdk (Mem.boot (Mem.local_env "/tmp/m")) = (Ok self0, w0)
    /\ @fit Mem.sdk (iter_of_list ["a"]) "" (self0, w0) = (Ok tt, (self1, w1))
    /\ w_log w1 = w_log w0
    /\ Mem.blobs (w_ext w1) = [("/tmp/m/model.pkl", FittedMLModel.mk [(PStr "0", "a")])]
    /\ is_fitted self1 = true
    /\ predict self1 (iter_of_list ["a"])
       = Raise (ValueError "No such id here, try 0 or 1").
Proof.
  let r0 := eval vm_compute in
              (@__init__ Mem.sdk (Mem.boot (Mem.local_env "/tmp/m"))) in
  match r0 with
  | (Ok ?self0, ?w0) =>
      let r1 := eval vm_compute in
                  (@fit Mem.sdk (iter_of_list ["a"]) "" (self0, w0)) in
      match r1 with
      | (_, (?self1, ?w1)) => exists self0, w0, self1, w1
      end
  end.
  repeat split; vm_compute; reflexivity.
Qed.

(** Fitting "a", "b" on an empty local root, then asking for "1". *)
Lemma fit_then_predict_by_index_witness :
  exists s',
    @fit Mem.sdk (iter_of_list ["a"; "b"]) ""
      (Mem.fresh "/tmp/m", Mem.boot (Mem.local_env "/tmp/m")) = (Ok tt, s')
    /\ is_fitted (fst s') = true
    /\ predict (fst s') (iter_of_list ["1"])
       = Ok (mkItemsCollection [mkItems [mkItem "b"]]).
Proof.
  eexists.
  destruct (@fit_then_predict_by_index Mem.sdk ["a"; "b"] ""
              (Mem.fresh "/tmp/m") (Mem.boot (Mem.local_env "/tmp/m"))
              _ _ _ eq_refl eq_refl) as [Hfit [Hflag Hpredict]].
  split; [exact Hfit|]. split; [exact Hflag|].
  apply (Hpredict 1 "b"). reflexivity.
Defined.

(** C2 (as stated, refuted): a controller is constructed on a local root;
    the storage type in the environment is then changed to "ftp"; the
    next [fit] raises [ValueError] to its caller. *)
Lemma fit_raises_on_invalid_storage_type :
  exists self0 w0,
    @__init__ Mem.sdk (Mem.boot (Mem.local_env "/tmp/m")) = (Ok self0, w0)
    /\ @fit Mem.sdk (iter_of_list ["a"]) ""
         (self0, Mem.setenv_world "MLP_STORAGE_TYPE" "ftp" w0)
       = (Raise (ValueError "storage_type ftp is invalid."),
          (self0, Mem.setenv_world "MLP_STORAGE_TYPE" "ftp" w0)).
Proof.
  let r0 := eval vm_compute in
              (@__init__ Mem.sdk (Mem.boot (Mem.local_env "/tmp/m"))) in
  match r0 with
  | (Ok ?self0, ?w0) => exists self0, w0
  end.
  split; vm_compute; reflexivity.
Qed.

(** The exits of [fit]: the storage type "ftp" makes it raise before the
    block; a root that cannot be written makes it log and return; a
    KeyboardInterrupt during the build passes through it, unlogged and
    with the new handle in place; a fit that succeeds returns. *)
Lemma fit_catches_exceptions_of_guarded_block_witness :
  @fit Mem.sdk (iter_of_list ["a"]) ""
    (Mem.fresh "/tmp/m",
     Mem.setenv_world "MLP_STORAGE_TYPE" "ftp" (Mem.boot (Mem.local_env "/tmp/m")))
  = (Raise (ValueError "storage_type ftp is invalid."),
     (Mem.fresh "/tmp/m",
      Mem.setenv_world "MLP_STORAGE_TYPE" "ftp" (Mem.boot (Mem.local_env "/tmp/m"))))
  /\ (exists self2 w2,
         @fit Mem.sdk (iter_of_list ["a"]) "/readonly"
           (Mem.fresh "/tmp/m", Mem.boot (Mem.local_env "/tmp/m"))
         = (Ok tt,
            (self2,
             logged "Fit execution error: "
               (OtherException "PermissionError" "/readonly/model.pkl") w2))
         /\ is_fitted self2 = false)
  /\ (exists self2 w2,
         @fit Mem.sdk (Next "a" (NextRaises (NotException "KeyboardInterrupt" "")))
           "/tmp/n" (Mem.fresh "/tmp/m", Mem.boot (Mem.local_env "/tmp/m"))
         = (Raise (NotException "KeyboardInterrupt" ""), (self2, w2))
         /\ w_log w2 = []
         /\ storage self2 = LocalStorage "/tmp/n"
         /\ is_fitted self2 = false)
  /\ (exists s',
         @fit Mem.sdk (iter_of_list ["a"]) ""
           (Mem.fresh "/tmp/m", Mem.boot (Mem.local_env "/tmp/m"))
         = (Ok tt, s')).
Proof.
  split; [|split; [|split]].
  - destruct (@fit_catches_exceptions_of_guarded_block Mem.sdk
                (iter_of_list ["a"]) "" (Mem.fresh "/tmp/m")
                (Mem.setenv_world "MLP_STORAGE_TYPE" "ftp"
                   (Mem.boot (Mem.local_env "/tmp/m")))) as [Hraise _].
    apply Hraise. reflexivity.
  - destruct (@fit_catches_exceptions_of_guarded_block Mem.sdk
                (iter_of_list ["a"]) "/readonly" (Mem.fresh "/tmp/m")
                (Mem.boot (Mem.local_env "/tmp/m"))) as [_ Hblock].
    destruct (Hblock _ _ eq_refl) as [_ Hfails].
    destruct (Hfails (OtherException "PermissionError" "/readonly/model.pkl")
                _ _ eq_refl) as [Hflag [Hcaught _]].
    do 2 eexists. split; [apply Hcaught; reflexivity|exact Hflag].
  - destruct (@fit_catches_exceptions_of_guarded_block Mem.sdk
                (Next "a" (NextRaises (NotException "KeyboardInterrupt" "")))
                "/tmp/n" (Mem.fresh "/tmp/m")
                (Mem.boot (Mem.local_env "/tmp/m"))) as [_ Hblock].
    destruct (Hblock _ _ eq_refl) as [_ Hfails].
    destruct (Hfails (NotException "KeyboardInterrupt" "") _ _ eq_refl)
      as [Hflag [_ Hpasses]].
    do 2 eexists. split; [apply Hpasses; reflexivity|].
    split; [reflexivity|]. split; [reflexivity|exact Hflag].
  - destruct (@fit_catches_exceptions_of_guarded_block Mem.sdk
                (iter_of_list ["a"]) "" (Mem.fresh "/tmp/m")
                (Mem.boot (Mem.local_env "/tmp/m"))) as [_ Hblock].
    destruct (Hblock _ _ eq_refl) as [Hok _].
    eexists. apply Hok. reflexivity.
Defined.

(** A build that raises at its second element keeps the empty model,
    whether the exception is caught (a TypeError) or passes through (a
    KeyboardInterrupt); a build that succeeds before a refused write
    leaves the new model in place. *)
Lemma fit_replaces_model_after_build_witness :
  (exists self' w',
      @fit Mem.sdk (Next "a" (NextRaises (OtherException "TypeError" "not a str")))
        "/tmp/n" (Mem.fresh "/tmp/m", Mem.boot (Mem.local_env "/tmp/m"))
      = (Ok tt, (self', w'))
      /\ model self' = FittedMLModel.mk []
      /\ is_fitted self' = false)
  /\ (exists self' w',
         @fit Mem.sdk (Next "a" (NextRaises (NotException "KeyboardInterrupt" "")))
           "/tmp/n" (Mem.fresh "/tmp/m", Mem.boot (Mem.local_env "/tmp/m"))
         = (Raise (NotException "KeyboardInterrupt" ""), (self', w'))
         /\ model self' = FittedMLModel.mk []
         /\ is_fitted self' = false)
  /\ (exists self' w',
         @fit Mem.sdk (iter_of_list ["a"]) "/readonly"
           (Mem.fresh "/tmp/m", Mem.boot (Mem.local_env "/tmp/m"))
         = (Ok tt, (self', w'))
         /\ model self' = FittedMLModel.mk [(PStr "0", "a")]
         /\ is_fitted self' = false).
Proof.
  split; [|split].
  - destruct (@fit_replaces_model_after_build Mem.sdk
                (Next "a" (NextRaises (OtherException "TypeError" "not a str")))
                "/tmp/n" (Mem.fresh "/tmp/m") (Mem.boot (Mem.local_env "/tmp/m"))
                _ _ eq_refl) as [Hbuild _].
    apply (Hbuild (OtherException "TypeError" "not a str")). reflexivity.
  - destruct (@fit_replaces_model_after_build Mem.sdk
                (Next "a" (NextRaises (NotException "KeyboardInterrupt" "")))
                "/tmp/n" (Mem.fresh "/tmp/m") (Mem.boot (Mem.local_env "/tmp/m"))
                _ _ eq_refl) as [Hbuild _].
    apply (Hbuild (NotException "KeyboardInterrupt" "")). reflexivity.
  - destruct (@fit_replaces_model_after_build Mem.sdk
                (iter_of_list ["a"])
                "/readonly" (Mem.fresh "/tmp/m") (Mem.boot (Mem.local_env "/tmp/m"))
                _ _ eq_refl) as [_ Hsave].
    eapply (Hsave [(PStr "0", "a")]
              (OtherException "PermissionError" "/readonly/model.pkl"));
      reflexivity.
Defined.

(** Construction on an empty root, and on a root that holds a blob. *)
Lemma init_restores_or_starts_unfitted_witness :
  (exists self' w',
      @__init__ Mem.sdk (Mem.boot (Mem.local_env "/tmp/m")) = (Ok self', w')
      /\ w_log w' = [LogError "Unable to load saved state, error message: "
                       (KeyError (PStr "/tmp/m/model.pkl"))]
      /\ is_fitted self' = false)
  /\ (exists self' w',
         @__init__ Mem.sdk (Mem.boot_stored "/tmp/m" (FittedMLModel.mk [(PStr "0", "a")]))
         = (Ok self', w')
         /\ model self' = FittedMLModel.mk [(PStr "0", "a")]
         /\ is_fitted self' = true).
Proof.
  split.
  - destruct (@init_restores_or_starts_unfitted Mem.sdk
                (Mem.boot (Mem.local_env "/tmp/m")) _ _ eq_refl) as [_ [Hmissing _]].
    destruct (Hmissing (KeyError (PStr "/tmp/m/model.pkl")) _ _ eq_refl eq_refl)
      as [Hinit Hflag].
    do 2 eexists. split; [exact Hinit|]. split; [reflexivity|exact Hflag].
  - destruct (@init_restores_or_starts_unfitted Mem.sdk
                (Mem.boot_stored "/tmp/m" (FittedMLModel.mk [(PStr "0", "a")]))
                _ _ eq_refl) as [_ [_ Hstored]].
    destruct (Hstored _ _ eq_refl) as [Hinit Hflag].
    do 2 eexists. split; [exact Hinit|]. split; [reflexivity|exact Hflag].
Defined.

(** The storage type "ftp": resolution and construction raise, the world
    is as before. *)
Lemma invalid_storage_type_raises_before_io_witness :
  @_get_storage Mem.sdk "" (Mem.boot [("MLP_STORAGE_TYPE", "ftp"); ("MLP_STORAGE_DIR", "/tmp/m")])
  = (Raise (ValueError "storage_type ftp is invalid."),
     Mem.boot [("MLP_STORAGE_TYPE", "ftp"); ("MLP_STORAGE_DIR", "/tmp/m")])
  /\ exists e,
       @__init__ Mem.sdk (Mem.boot [("MLP_STORAGE_TYPE", "ftp"); ("MLP_STORAGE_DIR", "/tmp/m")])
       = (Raise e, Mem.boot [("MLP_STORAGE_TYPE", "ftp"); ("MLP_STORAGE_DIR", "/tmp/m")]).
Proof.
  assert (Hl : "ftp" <> @LocalStorage_name Mem.sdk) by discriminate.
  assert (Hs : "ftp" <> @S3Storage_name Mem.sdk) by discriminate.
  destruct (@invalid_storage_type_raises_before_io Mem.sdk
              (Mem.boot [("MLP_STORAGE_TYPE", "ftp"); ("MLP_STORAGE_DIR", "/tmp/m")])
              "ftp" eq_refl Hl Hs) as [Hget [Hinit _]].
  split; [|exact Hinit].
  destruct (Hget "") as [e [He [Hv|[_ Hd]]]].
  - rewrite He, Hv. reflexivity.
  - discriminate Hd.
Defined.

(** A fit whose write is refused still moves the controller from the
    root "/tmp/m" to the root "/readonly". *)
Lemma fit_rebinds_storage_first_witness :
  exists self' w',
    @fit Mem.sdk (iter_of_list ["a"]) "/readonly"
      (Mem.fresh "/tmp/m", Mem.boot (Mem.local_env "/tmp/m"))
    = (Ok tt, (self', w'))
    /\ is_fitted self' = false
    /\ storage (Mem.fresh "/tmp/m") = LocalStorage "/tmp/m"
    /\ storage self' = LocalStorage "/readonly".
Proof.
  destruct (@fit_rebinds_storage_first Mem.sdk (iter_of_list ["a"]) "/readonly"
              (Mem.fresh "/tmp/m") (Mem.boot (Mem.local_env "/tmp/m"))
              _ _ eq_refl) as [_ [r [self' [w' [Hfit [_ [Hst _]]]]]]].
  exists self', w'.
  assert (Hr : r = Ok tt).
  { vm_compute in Hfit. now injection Hfit as <- _ _. }
  subst r. split; [exact Hfit|].
  split; [|split; [reflexivity|exact Hst]].
  vm_compute in Hfit. now injection Hfit as <- _.
Defined.

(** * Further properties of the code *)

(** ** The model data and [predict] *)

Lemma prepare_loop_then_raises (l : list string) (e : exn) :
  forall n d, prepare_loop n (iter_then l (NextRaises e)) d = Raise e.
Proof.
  induction l as [|x l IH]; intros n d; simpl; [reflexivity|apply IH].
Qed.

(** X1: when the iteration over the texts raises, after any number of
    texts, [_prepare_model_data] raises that same exception: the entries
    written so far are not returned. *)
Theorem prepare_model_data_propagates_iteration_error (l : list string) (e : exn) :
  _prepare_model_data (iter_then l (NextRaises e)) = Raise e.
Proof.
  unfold _prepare_model_data. apply prepare_loop_then_raises.
Qed.

Lemma indexed_from_get_inv (texts : list string) :
  forall start k v,
    dict_get k (indexed_from start texts) = Some v ->
    exists i, k = PStr (str_nat (start + i)) /\ nth_error texts i = Some v.
Proof.
  induction texts as [|t texts IH]; intros start k v; [discriminate|].
  rewrite indexed_from_cons. simpl.
  destruct (pyobj_eqb k (PStr (str_nat start))) eqn:E.
  - apply pyobj_eqb_eq in E. intro H. injection H as ->.
    exists 0. now rewrite Nat.add_0_r.
  - intro H. apply IH in H as [i [Hk Hi]].
    exists (S i). split; [|exact Hi].
    rewrite Hk. do 2 f_equal. lia.
Qed.

(** X2: in the data built from a list of texts, the keys are exactly the
    decimal strings of the positions below the length: a string is a key
    iff it is one of them (so "01" or " 1" is none), and no [int] is a
    key. *)
Theorem prepared_keys_are_positions (texts : list string) (d : dict) :
  _prepare_model_data (iter_of_list texts) = Ok d ->
  forall k : pyobj,
    FittedMLModel.has_data (FittedMLModel.mk d) k = true
    <-> exists i, i < length texts /\ k = PStr (str_nat i).
Proof.
  rewrite prepare_model_data_list. intro H. injection H as <-.
  intro k. rewrite has_data_get. simpl. split.
  - intros [v Hv]. apply indexed_from_get_inv in Hv as [i [Hk Hi]].
    exists i. split; [|exact Hk].
    apply nth_error_Some. now rewrite Hi.
  - intros [i [Hi ->]]. rewrite build_spec_lookup.
    destruct (nth_error texts i) as [v|] eqn:E; [now exists v|].
    apply nth_error_None in E. lia.
Qed.

Lemma prepared_keys_are_positions_witness :
  FittedMLModel.has_data (FittedMLModel.mk [(PStr "0", "a"); (PStr "1", "b")]) (PStr "1") = true
  /\ ~ (exists i, i < 2 /\ PStr "01" = PStr (str_nat i)).
Proof.
  pose proof (prepared_keys_are_positions ["a"; "b"]
                [(PStr "0", "a"); (PStr "1", "b")] eq_refl) as H.
  split.
  - apply (H (PStr "1")). exists 1. split; [simpl; lia|reflexivity].
  - intro Hex. apply (H (PStr "01")) in Hex. discriminate Hex.
Defined.

Lemma present_values (self : FitActionExample) (texts : list string) :
  forallb (fun x => FittedMLModel.has_data (model self) (PStr x)) texts = true ->
  exists vs,
    Forall2 (fun x v => dict_get (PStr x) (FittedMLModel.data (model self)) = Some v)
      texts vs.
Proof.
  induction texts as [|x texts IH]; simpl; intro H.
  - exists []. constructor.
  - apply andb_true_iff in H as [Hx Hrest].
    apply has_data_get in Hx as [v Hv].
    destruct (IH Hrest) as [vs Hvs].
    exists (v :: vs). now constructor.
Qed.

Lemma first_absent (self : FitActionExample) (texts : list string) :
  forallb (fun x => FittedMLModel.has_data (model self) (PStr x)) texts = false ->
  exists pre t post,
    texts = pre ++ t :: post
    /\ forallb (fun x => FittedMLModel.has_data (model self) (PStr x)) pre = true
    /\ FittedMLModel.has_data (model self) (PStr t) = false.
Proof.
  induction texts as [|x texts IH]; simpl; [discriminate|].
  destruct (FittedMLModel.has_data (model self) (PStr x)) eqn:Hx; simpl.
  - intro H. destruct (IH H) as [pre [t [post [-> [Hpre Ht]]]]].
    exists (x :: pre), t, post. simpl. now rewrite Hx.
  - intros _. exists [], x, texts. now repeat split.
Qed.

(** X3: on a list of texts [predict] is all or nothing.  If every text is
    a key of the model it returns one result group per text, in input
    order, each wrapping exactly the value stored under that text (the
    placeholder of [FittedMLModel.predict] is never produced); otherwise
    it raises the [ValueError], and that is the only way it fails. *)
Theorem predict_list_all_or_nothing (self : FitActionExample) (texts : list string) :
  (forallb (fun x => FittedMLModel.has_data (model self) (PStr x)) texts = true
   /\ exists groups,
        predict self (iter_of_list texts) = Ok (mkItemsCollection groups)
        /\ Forall2 (fun x g =>
                      exists v,
                        dict_get (PStr x) (FittedMLModel.data (model self)) = Some v
                        /\ g = mkItems [mkItem v])
             texts groups)
  \/ (forallb (fun x => FittedMLModel.has_data (model self) (PStr x)) texts = false
      /\ predict self (iter_of_list texts)
         = Raise (ValueError "No such id here, try 0 or 1")).
Proof.
  destruct (forallb (fun x => FittedMLModel.has_data (model self) (PStr x)) texts)
    eqn:Hall.
  - left. split; [reflexivity|].
    destruct (present_values self texts Hall) as [vs Hvs].
    exists (map (fun v => mkItems [mkItem v]) vs).
    split; [now apply predict_all_present|].
    induction Hvs as [|x v texts vs Hx _ IH]; simpl; constructor.
    + now exists v.
    + apply IH. simpl in Hall. now apply andb_true_iff in Hall as [_ Hall].
  - right. split; [reflexivity|].
    destruct (first_absent self texts Hall) as [pre [t [post [-> [Hpre Ht]]]]].
    unfold predict. now rewrite predict_loop_absent.
Qed.

Lemma predict_loop_model_only (self self' : FitActionExample) :
  model self = model self' ->
  forall texts acc, predict_loop self texts acc = predict_loop self' texts acc.
Proof.
  intro Hm. induction texts as [|x rest IH|e]; intro acc; simpl; try reflexivity.
  rewrite Hm.
  destruct (negb (FittedMLModel.has_data (model self') (PStr x))); [reflexivity|].
  destruct (FittedMLModel.predict (model self') (PStr x)); [apply IH|reflexivity].
Qed.

(** X4: [predict] reads nothing of the controller but its model: two
    controllers holding the same model answer alike, whatever their
    fitted flag, storage handle or blob name.  In particular it does not
    check [is_fitted]. *)
Theorem predict_reads_model_only (self self' : FitActionExample) (texts : iterable) :
  model self = model self' ->
  predict self texts = predict self' texts.
Proof.
  intro Hm. unfold predict. now rewrite (predict_loop_model_only self self' Hm).
Qed.

Lemma predict_reads_model_only_witness :
  predict (upd_model (FittedMLModel.mk [(PStr "0", "a")]) (Mem.fresh "/tmp/m"))
    (iter_of_list ["0"])
  = predict (upd_is_fitted_model true
               (upd_storage (LocalStorage "/other")
                  (upd_model (FittedMLModel.mk [(PStr "0", "a")]) (Mem.fresh "/tmp/m"))))
      (iter_of_list ["0"]).
Proof.
  apply (predict_reads_model_only
           (upd_model (FittedMLModel.mk [(PStr "0", "a")]) (Mem.fresh "/tmp/m"))
           (upd_is_fitted_model true
              (upd_storage (LocalStorage "/other")
                 (upd_model (FittedMLModel.mk [(PStr "0", "a")]) (Mem.fresh "/tmp/m"))))
           (iter_of_list ["0"])).
  reflexivity.
Defined.

(** ** Backend resolution, persistence and the lifecycle, over an arbitrary SDK *)

Section LifecycleFacts.

Context {sdk : SDK}.

(** The two ways [_get_storage] ends: before any storage call, or on
    the constructor of a handle. *)
Ltac raises_untouched :=
  simpl; split; [reflexivity|left; split; [reflexivity|eexists; reflexivity]].

Ltac constructor_ran :=
  match goal with
  | |- context [storage_init ?h ?x0] =>
      let E := fresh "E" in
      destruct (storage_init h x0) as [[[]|?] ?] eqn:E; simpl;
      (split; [reflexivity|]); right; exists h; (split; [reflexivity|]);
      [left; reflexivity
      |right; eexists; split; [reflexivity|now rewrite E]]
  end.

(** X5: every call of [_get_storage] leaves the log alone and makes at
    most one storage call, the construction of the handle.  Either it
    raises with the world untouched (an environment lookup failed or the
    type names no backend), or the constructor of a handle ran once: then
    that handle is returned, unless the constructor itself raised. *)
Theorem get_storage_effects (model_dir : string) (w : World) :
  w_log (snd (_get_storage model_dir w)) = w_log w
  /\ ((snd (_get_storage model_dir w) = w
       /\ exists e, fst (_get_storage model_dir w) = Raise e)
      \/ (exists st,
             w_io (snd (_get_storage model_dir w)) = w_io w ++ [IoInit st]
             /\ (fst (_get_storage model_dir w) = Ok st
                 \/ exists e,
                      fst (_get_storage model_dir w) = Raise e
                      /\ fst (storage_init st (w_ext w)) = Raise e))).
Proof.
  unfold _get_storage, bind, env, ret, raise, io_call.
  destruct (get_env "MLP_STORAGE_TYPE" None (w_ext w)) as [t|e];
    [|raises_untouched].
  destruct (Nat.eqb (String.length model_dir) 0);
    [destruct (get_env "MLP_STORAGE_DIR" None (w_ext w)) as [d|e];
     [|raises_untouched]|];
    (destruct (String.eqb t LocalStorage_name);
     [ constructor_ran
     | destruct (String.eqb t S3Storage_name); [|raises_untouched];
       destruct (get_env "MLP_S3_BUCKET" None (w_ext w)) as [bucket|e];
         [|raises_untouched];
       destruct (get_env "MLP_S3_REGION" (Some "") (w_ext w)) as [region|e];
         [|raises_untouched];
       destruct (get_env "MLP_S3_ACCESS_KEY" None (w_ext w)) as [ak|e];
         [|raises_untouched];
       destruct (get_env "MLP_S3_SECRET_KEY" None (w_ext w)) as [sk|e];
         [|raises_untouched];
       destruct (get_env "MLP_S3_ENDPOINT" None (w_ext w)) as [ep|e];
         [|raises_untouched];
       constructor_ran ]).
Qed.

(** X6: a handle returned by [_get_storage] is a [LocalStorage] on the
    resolved directory when the storage type is the local backend's
    name; otherwise the type is the remote backend's name and the handle
    is an [S3Storage] on that directory, with service name "s3" and the
    bucket, region, keys and endpoint read from the environment. *)
Theorem get_storage_handle (model_dir : string) (w w1 : World) (st : Storage) :
  _get_storage model_dir w = (Ok st, w1) ->
  exists t d,
    get_env "MLP_STORAGE_TYPE" None (w_ext w) = Ok t
    /\ resolved_dir model_dir w = Ok d
    /\ ((t = LocalStorage_name /\ st = LocalStorage d)
        \/ (t <> LocalStorage_name /\ t = S3Storage_name
            /\ exists bucket region access_key secret_key endpoint,
                 get_env "MLP_S3_BUCKET" None (w_ext w) = Ok bucket
                 /\ get_env "MLP_S3_REGION" (Some "") (w_ext w) = Ok region
                 /\ get_env "MLP_S3_ACCESS_KEY" None (w_ext w) = Ok access_key
                 /\ get_env "MLP_S3_SECRET_KEY" None (w_ext w) = Ok secret_key
                 /\ get_env "MLP_S3_ENDPOINT" None (w_ext w) = Ok endpoint
                 /\ st = S3Storage bucket d "s3" region access_key secret_key endpoint)).
Proof.
  unfold _get_storage, resolved_dir, bind, env, ret, raise, io_call.
  destruct (get_env "MLP_STORAGE_TYPE" None (w_ext w)) as [t|e]; [|discriminate].
  destruct (Nat.eqb (String.length model_dir) 0);
    [destruct (get_env "MLP_STORAGE_DIR" None (w_ext w)) as [d|e]; [|discriminate]|];
    (destruct (String.eqb t LocalStorage_name) eqn:El;
     [ apply String.eqb_eq in El;
       match goal with
       | |- context [storage_init ?h ?x] =>
           destruct (storage_init h x) as [[[]|e] x']
       end;
       intro H; [|discriminate]; injection H as <- _;
       do 2 eexists; split; [reflexivity|]; split; [reflexivity|];
       left; now split
     | apply String.eqb_neq in El;
       destruct (String.eqb t S3Storage_name) eqn:Es; [|discriminate];
       apply String.eqb_eq in Es;
       destruct (get_env "MLP_S3_BUCKET" None (w_ext w)) as [bucket|e]; [|discriminate];
       destruct (get_env "MLP_S3_REGION" (Some "") (w_ext w)) as [region|e]; [|discriminate];
       destruct (get_env "MLP_S3_ACCESS_KEY" None (w_ext w)) as [ak|e]; [|discriminate];
       destruct (get_env "MLP_S3_SECRET_KEY" None (w_ext w)) as [sk|e]; [|discriminate];
       destruct (get_env "MLP_S3_ENDPOINT" None (w_ext w)) as [ep|e]; [|discriminate];
       match goal with
       | |- context [storage_init ?h ?x] =>
           destruct (storage_init h x) as [[[]|e] x']
       end;
       intro H; [|discriminate]; injection H as <- _;
       do 2 eexists; split; [reflexivity|]; split; [reflexivity|];
       right; split; [exact El|]; split; [exact Es|];
       do 5 eexists; repeat split ]).
Qed.

(** The empty override and the directory of the environment resolve
    alike. *)
Lemma get_storage_default (w : World) (d : string) :
  get_env "MLP_STORAGE_DIR" None (w_ext w) = Ok d ->
  _get_storage "" w = _get_storage d w.
Proof.
  intro Hd. destruct d as [|c d]; [reflexivity|].
  unfold _get_storage, bind, env, ret. simpl. rewrite Hd. reflexivity.
Qed.

(** X7: leaving [model_dir] empty is the same as passing the directory
    the environment names under MLP_STORAGE_DIR: backend resolution,
    [fit] and [prune_state] then behave identically. *)
Theorem empty_override_is_environment_dir (w : World) (d : string) :
  get_env "MLP_STORAGE_DIR" None (w_ext w) = Ok d ->
  _get_storage "" w = _get_storage d w
  /\ (forall texts self, fit texts "" (self, w) = fit texts d (self, w))
  /\ (forall self, prune_state "" (self, w) = prune_state d (self, w)).
Proof.
  intro Hd. pose proof (get_storage_default w d Hd) as Hg.
  split; [exact Hg|]. split.
  - intros texts self. now rewrite !fit_unfold, Hg.
  - intro self. destruct d as [|c d]; [reflexivity|].
    unfold prune_state, bind, liftW, env, ret. simpl. rewrite Hd. reflexivity.
Qed.

(** [_get_storage] never logs. *)
Lemma get_storage_log (model_dir : string) (w : World) :
  w_log (snd (_get_storage model_dir w)) = w_log w.
Proof.
  unfold _get_storage, bind, env, ret, raise, io_call.
  destruct (get_env "MLP_STORAGE_TYPE" None (w_ext w)) as [t|e]; [|reflexivity].
  destruct (Nat.eqb (String.length model_dir) 0);
    [destruct (get_env "MLP_STORAGE_DIR" None (w_ext w)) as [d|e]; [|reflexivity]|];
    (destruct (String.eqb t LocalStorage_name);
     [ match goal with
       | |- context [storage_init ?h ?x0] =>
           destruct (storage_init h x0) as [[[]|?] ?]
       end; reflexivity
     | destruct (String.eqb t S3Storage_name); [|reflexivity];
       destruct (get_env "MLP_S3_BUCKET" None (w_ext w)); [|reflexivity];
       destruct (get_env "MLP_S3_REGION" (Some "") (w_ext w)); [|reflexivity];
       destruct (get_env "MLP_S3_ACCESS_KEY" None (w_ext w)); [|reflexivity];
       destruct (get_env "MLP_S3_SECRET_KEY" None (w_ext w)); [|reflexivity];
       destruct (get_env "MLP_S3_ENDPOINT" None (w_ext w)); [|reflexivity];
       match goal with
       | |- context [storage_init ?h ?x0] =>
           destruct (storage_init h x0) as [[[]|?] ?]
       end; reflexivity ]).
Qed.

(** X8: [_save_state] changes nothing of [self] and logs nothing.  It
    opens the blob for writing on [self.storage]; if that raises nothing
    else is called; otherwise the current model is dumped and the stream
    is left through [__exit__], also when the dump raised. *)
Theorem save_state_releases_stream (self : FitActionExample) (w : World) :
  fst (snd (_save_state (self, w))) = self
  /\ w_log (snd (snd (_save_state (self, w)))) = w_log w
  /\ ((exists e x,
          storage_open (storage self) (model_path self) "wb" (w_ext w) = (Raise e, x)
          /\ fst (_save_state (self, w)) = Raise e
          /\ w_io (snd (snd (_save_state (self, w))))
             = w_io w ++ [IoOpen (storage self) (model_path self) "wb"])
      \/ (exists f x,
             storage_open (storage self) (model_path self) "wb" (w_ext w) = (Ok f, x)
             /\ w_io (snd (snd (_save_state (self, w))))
                = w_io w ++ [IoOpen (storage self) (model_path self) "wb";
                             IoDump (model self); IoExit])).
Proof.
  unfold _save_state, with_open, bind, get_self, liftW, io_call, ret, raise.
  simpl.
  destruct (storage_open (storage self) (model_path self) "wb" (w_ext w))
    as [[f|e] x]; simpl.
  - destruct (pickle_dump (model self) f x) as [[[]|e] x']; simpl;
      destruct (stream_exit f x') as [[[]|e'] x'']; simpl;
      (split; [reflexivity|]); (split; [reflexivity|]);
      right; exists f, x; (split; [reflexivity|]);
      now rewrite <- !app_assoc.
  - split; [reflexivity|]. split; [reflexivity|].
    left. exists e, x. now repeat split.
Qed.

(** X9: [_load_state] logs nothing.  It opens the blob for reading on
    [self.storage]; if that raises nothing else is called and [self] is as
    before; otherwise the stream is read and then left through
    [__exit__], also when the read or the unpickling raised. *)
Theorem load_state_releases_stream (self : FitActionExample) (w : World) :
  w_log (snd (snd (_load_state (self, w)))) = w_log w
  /\ ((exists e x,
          storage_open (storage self) (model_path self) "rb" (w_ext w) = (Raise e, x)
          /\ _load_state (self, w)
             = (Raise e,
                (self,
                 {| w_ext := x;
                    w_io := w_io w ++ [IoOpen (storage self) (model_path self) "rb"];
                    w_log := w_log w |})))
      \/ (exists f x,
             storage_open (storage self) (model_path self) "rb" (w_ext w) = (Ok f, x)
             /\ w_io (snd (snd (_load_state (self, w))))
                = w_io w ++ [IoOpen (storage self) (model_path self) "rb";
                             IoRead; IoExit])).
Proof.
  unfold _load_state, with_open, bind, get_self, liftW, io_call, ret, raise,
    lift_result, set_model, set_is_fitted_model.
  simpl.
  destruct (storage_open (storage self) (model_path self) "rb" (w_ext w))
    as [[f|e] x]; simpl.
  - destruct (stream_read f x) as [[b|e] x']; simpl;
      [destruct (pickle_loads b) as [m|e]; simpl|];
      destruct (stream_exit f x') as [[[]|e'] x'']; simpl;
      (split; [reflexivity|]);
      right; exists f, x; (split; [reflexivity|]);
      now rewrite <- !app_assoc.
  - split; [reflexivity|]. left. exists e, x. now split.
Qed.

(** [_load_state], with every exit spelled out. *)
Lemma load_state_unfold (self : FitActionExample) (w : World) :
  _load_state (self, w)
  = match storage_open (storage self) (model_path self) "rb" (w_ext w) with
    | (Raise e, x) =>
        (Raise e,
         (self,
          {| w_ext := x;
             w_io := w_io w ++ [IoOpen (storage self) (model_path self) "rb"];
             w_log := w_log w |}))
    | (Ok f, x) =>
        let after x'' :=
          {| w_ext := x'';
             w_io := w_io w ++ [IoOpen (storage self) (model_path self) "rb";
                                IoRead; IoExit];
             w_log := w_log w |} in
        match stream_read f x with
        | (Raise e, x') =>
            match stream_exit f x' with
            | (Ok _, x'') => (Raise e, (self, after x''))
            | (Raise e', x'') => (Raise e', (self, after x''))
            end
        | (Ok blob, x') =>
            match pickle_loads blob with
            | Raise e =>
                match stream_exit f x' with
                | (Ok _, x'') => (Raise e, (self, after x''))
                | (Raise e', x'') => (Raise e', (self, after x''))
                end
            | Ok m =>
                match stream_exit f x' with
                | (Ok _, x'') =>
                    (Ok tt, (upd_is_fitted_model true (upd_model m self), after x''))
                | (Raise e', x'') => (Raise e', (upd_model m self, after x''))
                end
            end
        end
    end.
Proof.
  unfold _load_state, with_open, bind, get_self, liftW, io_call, ret, raise,
    lift_result, set_model, set_is_fitted_model.
  simpl.
  destruct (storage_open (storage self) (model_path self) "rb" (w_ext w))
    as [[f|e] x]; simpl; [|reflexivity].
  destruct (stream_read f x) as [[b|e] x']; simpl;
    [destruct (pickle_loads b) as [m|e]; simpl|];
    destruct (stream_exit f x') as [[[]|e'] x'']; simpl;
    now rewrite <- !app_assoc.
Qed.

(** X10: what [_load_state] does to [self].  The storage handle and the
    blob name are never changed.  It returns normally only when the blob
    was opened, read and unpickled and the stream was left without an
    exception: then the model is the unpickled one and the fitted flag is
    set.  When it raises, the fitted flag is as before, and [self] as a
    whole is as before with one exception: the blob was opened, read and
    unpickled, and leaving the stream raised; then, and only then, the
    unpickled model has been assigned, and the exception raised is the one
    of [__exit__]. *)
Theorem load_state_outcome (self self' : FitActionExample) (w w' : World)
  (r : result unit) :
  _load_state (self, w) = (r, (self', w')) ->
  storage self' = storage self
  /\ model_path self' = model_path self
  /\ match r with
     | Ok _ =>
         exists f x blob x' x'',
           storage_open (storage self) (model_path self) "rb" (w_ext w) = (Ok f, x)
           /\ stream_read f x = (Ok blob, x')
           /\ pickle_loads blob = Ok (model self')
           /\ stream_exit f x' = (Ok tt, x'')
           /\ self' = upd_is_fitted_model true (upd_model (model self') self)
     | Raise e =>
         is_fitted_model self' = is_fitted_model self
         /\ (self' = self
             \/ exists f x blob x' x'' m,
                  storage_open (storage self) (model_path self) "rb" (w_ext w)
                  = (Ok f, x)
                  /\ stream_read f x = (Ok blob, x')
                  /\ pickle_loads blob = Ok m
                  /\ stream_exit f x' = (Raise e, x'')
                  /\ self' = upd_model m self)
     end
  /\ (forall f x blob x' x'' m e',
         storage_open (storage self) (model_path self) "rb" (w_ext w) = (Ok f, x) ->
         stream_read f x = (Ok blob, x') ->
         pickle_loads blob = Ok m ->
         stream_exit f x' = (Raise e', x'') ->
         r = Raise e' /\ self' = upd_model m self).
Proof.
  rewrite load_state_unfold. intro H.
  destruct (storage_open (storage self) (model_path self) "rb" (w_ext w))
    as [[f|e] x] eqn:Eo.
  - cbv zeta in H.
    destruct (stream_read f x) as [[b|e] x'] eqn:Er.
    + destruct (pickle_loads b) as [m|e] eqn:Ep.
      * destruct (stream_exit f x') as [[[]|e'] x''] eqn:Ee;
          injection H as <- <- <-; simpl.
        -- split; [reflexivity|]. split; [reflexivity|]. split.
           ++ exists f, x, b, x', x''. now repeat split.
           ++ intros f0 x0 blob0 x0' x0'' m0 e0 Ho Hr Hp Hx.
              injection Ho as <- <-. rewrite Er in Hr. injection Hr as <- <-.
              rewrite Ee in Hx. discriminate Hx.
        -- split; [reflexivity|]. split; [reflexivity|]. split.
           ++ split; [reflexivity|]. right.
              exists f, x, b, x', x'', m. now repeat split.
           ++ intros f0 x0 blob0 x0' x0'' m0 e0 Ho Hr Hp Hx.
              injection Ho as <- <-. rewrite Er in Hr. injection Hr as <- <-.
              rewrite Ep in Hp. injection Hp as <-.
              rewrite Ee in Hx. injection Hx as <- _. now split.
      * destruct (stream_exit f x') as [[[]|e'] x''] eqn:Ee;
          injection H as <- <- <-; simpl;
          (split; [reflexivity|]); (split; [reflexivity|]);
          (split; [split; [reflexivity|now left]|]);
          intros f0 x0 blob0 x0' x0'' m0 e0 Ho Hr Hp Hx;
          injection Ho as <- <-; rewrite Er in Hr; injection Hr as <- <-;
          rewrite Ep in Hp; discriminate Hp.
    + destruct (stream_exit f x') as [[[]|e'] x''] eqn:Ee;
        injection H as <- <- <-; simpl;
        (split; [reflexivity|]); (split; [reflexivity|]);
        (split; [split; [reflexivity|now left]|]);
        intros f0 x0 blob0 x0' x0'' m0 e0 Ho Hr Hp Hx;
        injection Ho as <- <-; rewrite Er in Hr; discriminate Hr.
  - injection H as <- <- <-. split; [reflexivity|]. split; [reflexivity|].
    split; [split; [reflexivity|now left]|].
    intros f0 x0 blob0 x0' x0'' m0 e0 Ho. discriminate Ho.
Qed.

Lemma save_state_log (s : St) :
  w_log (snd (snd (_save_state s))) = w_log (snd s).
Proof.
  destruct s as [self w].
  unfold _save_state, with_open, bind, get_self, liftW, io_call, ret, raise.
  simpl.
  destruct (storage_open (storage self) (model_path self) "wb" (w_ext w))
    as [[f|e] x]; simpl; [|reflexivity].
  destruct (pickle_dump (model self) f x) as [[[]|e] x']; simpl;
    destruct (stream_exit f x') as [[[]|e'] x'']; reflexivity.
Qed.

Lemma fit_body_log (texts : iterable) (s : St) :
  w_log (snd (snd (fit_body texts s))) = w_log (snd s).
Proof.
  rewrite fit_body_unfold.
  destruct (_prepare_model_data texts) as [d|e]; [|reflexivity].
  pose proof (save_state_log (upd_model (FittedMLModel.mk d) (fst s), snd s)) as Hl.
  destruct (_save_state (upd_model (FittedMLModel.mk d) (fst s), snd s))
    as [[[]|e] s2]; exact Hl.
Qed.

Lemma load_state_path (s : St) :
  model_path (fst (snd (_load_state s))) = model_path (fst s).
Proof.
  destruct s as [self w].
  unfold _load_state, with_open, bind, get_self, liftW, io_call, ret, raise,
    lift_result, set_model, set_is_fitted_model.
  simpl.
  destruct (storage_open (storage self) (model_path self) "rb" (w_ext w))
    as [[f|e] x]; simpl; [|reflexivity].
  destruct (stream_read f x) as [[b|e] x']; simpl;
    [destruct (pickle_loads b) as [m|e]; simpl|];
    destruct (stream_exit f x') as [[[]|e'] x'']; reflexivity.
Qed.

(** X11: once the backend is resolved, [fit] on a list of texts always
    leaves the controller holding the index mapping of that list, on the
    new handle and under the same blob name, whatever the model was
    before and whether or not the persistence succeeded; the fitted flag
    is set when [_save_state] returned and is the old one when it
    raised.  [fit] returns normally, unless [_save_state] raised an
    exception not derived from [Exception], which it raises in turn. *)
Theorem fit_list_always_replaces_model (T : list string) (model_dir : string)
  (self : FitActionExample) (w w1 : World) (st : Storage) :
  _get_storage model_dir w = (Ok st, w1) ->
  exists w',
    fit (iter_of_list T) model_dir (self, w)
    = (match fst (_save_state
                    (upd_model (FittedMLModel.mk (build_spec T))
                       (upd_storage st self), w1)) with
       | Ok _ => Ok tt
       | Raise e => if is_Exception e then Ok tt else Raise e
       end,
       ({| model := FittedMLModel.mk (build_spec T);
           storage := st;
           model_path := model_path self;
           is_fitted_model :=
             match fst (_save_state
                          (upd_model (FittedMLModel.mk (build_spec T))
                             (upd_storage st self), w1)) with
             | Ok _ => true
             | Raise _ => is_fitted_model self
             end |}, w')).
Proof.
  intro Hst.
  rewrite fit_unfold, Hst, fit_body_unfold, prepare_model_data_list.
  simpl fst; simpl snd.
  pose proof (save_state_self
                (upd_model (FittedMLModel.mk (build_spec T)) (upd_storage st self), w1))
    as Hs.
  destruct (_save_state
              (upd_model (FittedMLModel.mk (build_spec T)) (upd_storage st self), w1))
    as [[[]|e] [self2 w2]]; simpl in *; subst self2;
    [|destruct (is_Exception e)]; eexists; reflexivity.
Qed.

(** X12: [fit] never clears the fitted flag: a controller that is fitted
    before the call is fitted after it, whether [fit] raised, failed
    silently or succeeded. *)
Theorem fit_keeps_fitted (texts : iterable) (model_dir : string)
  (self : FitActionExample) (w : World) :
  is_fitted self = true ->
  is_fitted (fst (snd (fit texts model_dir (self, w)))) = true.
Proof.
  intro Hf. rewrite fit_unfold.
  destruct (_get_storage model_dir w) as [[st|e] w1]; [|exact Hf].
  destruct (fit_body texts (upd_storage st self, w1)) as [[[]|e] [self2 w2]] eqn:Eb.
  - rewrite fit_body_unfold in Eb.
    destruct (_prepare_model_data texts) as [d|e]; [|discriminate].
    destruct (_save_state _) as [[[]|e] s2]; [|discriminate].
    now injection Eb as <- _.
  - apply fit_body_raise_flag in Eb. simpl in Eb.
    destruct (is_Exception e); simpl; unfold is_fitted; now rewrite Eb.
Qed.

(** X13: once the backend is resolved, [fit] logs exactly the failure it
    catches: nothing when the guarded block ran to its end, the one
    record 'Fit execution error: <exception>' when the block raised an
    exception derived from [Exception], and nothing when the block raised
    any other exception (which [fit] raises in turn). *)
Theorem fit_logs_exactly_its_failure (texts : iterable) (model_dir : string)
  (self : FitActionExample) (w w1 : World) (st : Storage) :
  _get_storage model_dir w = (Ok st, w1) ->
  match fst (fit_body texts (upd_storage st self, w1)) with
  | Ok _ =>
      w_log (snd (snd (fit texts model_dir (self, w)))) = w_log w
  | Raise e =>
      w_log (snd (snd (fit texts model_dir (self, w))))
      = if is_Exception e
        then w_log w ++ [LogError "Fit execution error: " e]
        else w_log w
  end.
Proof.
  intro Hst.
  pose proof (get_storage_log model_dir w) as Hg. rewrite Hst in Hg. simpl in Hg.
  pose proof (fit_body_log texts (upd_storage st self, w1)) as Hb.
  rewrite fit_unfold, Hst.
  destruct (fit_body texts (upd_storage st self, w1)) as [[[]|e] [self2 w2]];
    simpl in *; [|destruct (is_Exception e); simpl]; now rewrite Hb, Hg.
Qed.

(** X14: a successful [fit] on the empty list marks the controller as
    fitted although its model holds nothing: afterwards [predict] returns
    the empty collection for the empty batch and raises for every other
    batch. *)
Theorem fit_empty_list_answers_nothing (model_dir : string)
  (self : FitActionExample) (w w1 : World) (st : Storage) (s' : St) :
  _get_storage model_dir w = (Ok st, w1) ->
  fit_body (iter_of_list []) (upd_storage st self, w1) = (Ok tt, s') ->
  fit (iter_of_list []) model_dir (self, w) = (Ok tt, s')
  /\ is_fitted (fst s') = true
  /\ predict (fst s') (iter_of_list []) = Ok (mkItemsCollection [])
  /\ forall x l,
       predict (fst s') (iter_of_list (x :: l))
       = Raise (ValueError "No such id here, try 0 or 1").
Proof.
  intros Hst Hbody.
  rewrite fit_unfold, Hst, Hbody.
  destruct (fit_body_ok [] _ _ Hbody) as [Hm Hf].
  repeat split; [exact Hf|].
  intros x l. unfold predict. simpl. rewrite Hm. reflexivity.
Qed.

(** [prune_state], with its exits spelled out. *)
Lemma prune_state_unfold (model_dir : string) (self : FitActionExample) (w : World) :
  prune_state model_dir (self, w)
  = match (if Nat.ltb 0 (String.length model_dir)
           then Ok model_dir
           else get_env "MLP_STORAGE_DIR" None (w_ext w)) with
    | Raise e => (Raise e, (self, w))
    | Ok remove_path =>
        match _get_storage remove_path w with
        | (Raise e, w1) => (Raise e, (self, w1))
        | (Ok st, w1) =>
            let (r, x) := storage_remove st (model_path self) (w_ext w1) in
            (r, (self, {| w_ext := x;
                          w_io := w_io w1 ++ [IoRemove st (model_path self)];
                          w_log := w_log w1 |}))
        end
    end.
Proof.
  unfold prune_state, bind, liftW, env, ret, get_self, io_call. simpl.
  destruct (Nat.ltb 0 (String.length model_dir)); simpl.
  - destruct (_get_storage model_dir w) as [[st|e] w1]; simpl; [|reflexivity].
    now destruct (storage_remove st (model_path self) (w_ext w1)).
  - destruct (get_env "MLP_STORAGE_DIR" None (w_ext w)) as [d|e]; [|reflexivity].
    destruct (_get_storage d w) as [[st|e] w1]; simpl; [|reflexivity].
    now destruct (storage_remove st (model_path self) (w_ext w1)).
Qed.

(** X15: [prune_state] changes nothing of [self] (it does not rebind
    [self.storage], clear the model or reset the fitted flag) and logs
    nothing, whatever its outcome. *)
Theorem prune_state_frame (model_dir : string) (self : FitActionExample) (w : World) :
  fst (snd (prune_state model_dir (self, w))) = self
  /\ w_log (snd (snd (prune_state model_dir (self, w)))) = w_log w.
Proof.
  rewrite prune_state_unfold.
  destruct (if Nat.ltb 0 (String.length model_dir)
            then Ok model_dir
            else get_env "MLP_STORAGE_DIR" None (w_ext w)) as [dir|e]; [|now split].
  pose proof (get_storage_log dir w) as Hg.
  destruct (_get_storage dir w) as [[st|e] w1]; simpl in *; [|now split].
  destruct (storage_remove st (model_path self) (w_ext w1)) as [r x]; simpl.
  now split.
Qed.

(** X16: when the backend for [model_dir] is resolved, [prune_state]
    makes one more storage call, the removal of the blob [self.model_path]
    on the resolved handle, and ends exactly as that call ends: a failed
    removal is raised to the caller. *)
Theorem prune_state_returns_remove_outcome (model_dir : string)
  (self : FitActionExample) (w w1 : World) (st : Storage)
  (r : result unit) (x : ext) :
  _get_storage model_dir w = (Ok st, w1) ->
  storage_remove st (model_path self) (w_ext w1) = (r, x) ->
  prune_state model_dir (self, w)
  = (r, (self, {| w_ext := x;
                  w_io := w_io w1 ++ [IoRemove st (model_path self)];
                  w_log := w_log w1 |})).
Proof.
  intros Hst Hrm. rewrite prune_state_unfold.
  destruct (Nat.ltb 0 (String.length model_dir)) eqn:El.
  - now rewrite Hst, Hrm.
  - assert (model_dir = "") as -> by (destruct model_dir; [reflexivity|discriminate]).
    pose proof (get_storage_root w w1 "" st Hst) as Hd.
    unfold resolved_dir in Hd. simpl in Hd. rewrite Hd.
    rewrite <- (get_storage_default w _ Hd), Hst, Hrm. reflexivity.
Qed.

(** X17: construction raises in two cases only, and hands out no
    controller then: the backend resolution raised (no load is tried), or
    the load raised an exception that is not a [KeyError].  Such a load
    failure (a corrupt blob, an unreachable store) is not caught and not
    logged. *)
Theorem init_raises_exactly (w w' : World) (e : exn) :
  __init__ w = (Raise e, w')
  <-> (_get_storage "" w = (Raise e, w')
       \/ exists st w1 self2,
            _get_storage "" w = (Ok st, w1)
            /\ _load_state ({| model := FittedMLModel.mk [];
                               storage := st;
                               model_path := "model.pkl";
                               is_fitted_model := false |}, w1)
               = (Raise e, (self2, w'))
            /\ is_KeyError e = false).
Proof.
  rewrite init_unfold. split.
  - destruct (_get_storage "" w) as [[st|e0] w1];
      [|intro H; injection H as <- <-; now left].
    destruct (_load_state _) as [[[]|e1] [self2 w2]] eqn:El; [discriminate|].
    destruct (is_KeyError e1) eqn:Ek; [discriminate|].
    intro H. injection H as <- <-. right. now exists st, w1, self2.
  - intros [Hg|[st [w1 [self2 [Hg [Hl Hk]]]]]]; rewrite Hg; [reflexivity|].
    now rewrite Hl, Hk.
Qed.

Lemma init_model_path (w w' : World) (self : FitActionExample) :
  __init__ w = (Ok self, w') -> model_path self = "model.pkl".
Proof.
  rewrite init_unfold.
  destruct (_get_storage "" w) as [[st|e] w1]; [|discriminate].
  pose proof (load_state_path
                ({| model := FittedMLModel.mk []; storage := st;
                    model_path := "model.pkl"; is_fitted_model := false |}, w1)) as Hp.
  destruct (_load_state _) as [[[]|e] [self2 w2]]; simpl in Hp.
  - intro H. now injection H as <- _.
  - destruct (is_KeyError e); [|discriminate].
    intro H. now injection H as <- _.
Qed.

Lemma fit_model_path (texts : iterable) (model_dir : string)
  (self : FitActionExample) (w : World) :
  model_path (fst (snd (fit texts model_dir (self, w)))) = model_path self.
Proof.
  rewrite fit_unfold.
  destruct (_get_storage model_dir w) as [[st|e] w1]; [|reflexivity].
  rewrite fit_body_unfold.
  destruct (_prepare_model_data texts) as [d|e];
    [|now destruct (is_Exception e)].
  simpl fst; simpl snd.
  pose proof (save_state_self
                (upd_model (FittedMLModel.mk d) (upd_storage st self), w1)) as Hs.
  destruct (_save_state _) as [[[]|e] [self2 w2]]; simpl in *; subst self2;
    [reflexivity|now destruct (is_Exception e)].
Qed.

(** X18: the blob name is an invariant of the lifecycle: every controller
    that [__init__] returned, after any sequence of [fit] and
    [prune_state] calls, still has [model_path] "model.pkl"; so every
    save, load and removal it makes addresses that one name under its
    root. *)
Theorem reachable_model_path (self : FitActionExample) :
  reachable self -> model_path self = "model.pkl".
Proof.
  induction 1 as [w w' self Hinit
                 |self self' w w' texts model_dir r _ IH Hfit
                 |self self' w w' model_dir r _ IH Hprune].
  - exact (init_model_path w w' self Hinit).
  - pose proof (fit_model_path texts model_dir self w) as Hp.
    rewrite Hfit in Hp. simpl in Hp. now rewrite Hp.
  - rewrite prune_state_unfold in Hprune.
    destruct (if Nat.ltb 0 (String.length model_dir)
              then Ok model_dir
              else get_env "MLP_STORAGE_DIR" None (w_ext w)) as [dir|e].
    + destruct (_get_storage dir w) as [[st|e] w1].
      * destruct (storage_remove st (model_path self) (w_ext w1)) as [r0 x].
        now injection Hprune as _ <- _.
      * now injection Hprune as _ <- _.
    + now injection Hprune as _ <- _.
Qed.

End LifecycleFacts.

(** ** The further properties on the in-memory SDK *)

(** On a local environment the handle is a [LocalStorage] on the override. *)
Lemma get_storage_handle_witness :
  exists t d,
    Mem.getenv "MLP_STORAGE_TYPE" None (Mem.mkFs (Mem.local_env "/tmp/m") []) = Ok t
    /\ @resolved_dir Mem.sdk "/tmp/n" (Mem.boot (Mem.local_env "/tmp/m")) = Ok d
    /\ t = "local" /\ d = "/tmp/n".
Proof.
  destruct (@get_storage_handle Mem.sdk "/tmp/n" (Mem.boot (Mem.local_env "/tmp/m"))
              _ (LocalStorage "/tmp/n") eq_refl)
    as [t [d [Ht [Hd _]]]].
  exists t, d. split; [exact Ht|]. split; [exact Hd|].
  vm_compute in Ht, Hd. injection Ht as <-. injection Hd as <-. now split.
Defined.

(** With MLP_STORAGE_DIR set to "/tmp/m", fitting with no override is
    fitting with the override "/tmp/m". *)
Lemma empty_override_is_environment_dir_witness :
  @fit Mem.sdk (iter_of_list ["a"]) ""
    (Mem.fresh "/tmp/m", Mem.boot (Mem.local_env "/tmp/m"))
  = @fit Mem.sdk (iter_of_list ["a"]) "/tmp/m"
      (Mem.fresh "/tmp/m", Mem.boot (Mem.local_env "/tmp/m")).
Proof.
  destruct (@empty_override_is_environment_dir Mem.sdk
              (Mem.boot (Mem.local_env "/tmp/m")) "/tmp/m" eq_refl) as [_ [Hfit _]].
  apply Hfit.
Defined.

(** Loading on a root that holds a blob; on an empty root; and on a
    root that holds a blob when leaving the stream raises: there the
    unpickled model is in place, the flag is not set and the exception is
    the one of [__exit__]. *)
Lemma load_state_outcome_witness :
  (@_load_state Mem.sdk
     (Mem.fresh "/tmp/m", Mem.boot_stored "/tmp/m" (FittedMLModel.mk [(PStr "0", "a")]))
   = (Ok tt,
      ({| model := FittedMLModel.mk [(PStr "0", "a")];
          storage := LocalStorage "/tmp/m";
          model_path := "model.pkl";
          is_fitted_model := true |},
       @mkWorld Mem.sdk
         (Mem.mkFs (Mem.local_env "/tmp/m")
            [("/tmp/m/model.pkl", FittedMLModel.mk [(PStr "0", "a")])])
         [IoOpen (LocalStorage "/tmp/m") "model.pkl" "rb"; IoRead; IoExit] []))
   /\ storage {| model := FittedMLModel.mk [(PStr "0", "a")];
                 storage := LocalStorage "/tmp/m";
                 model_path := "model.pkl";
                 is_fitted_model := true |}
      = storage (Mem.fresh "/tmp/m"))
  /\ (@_load_state Mem.sdk (Mem.fresh "/tmp/m", Mem.boot (Mem.local_env "/tmp/m"))
      = (Raise (KeyError (PStr "/tmp/m/model.pkl")),
         (Mem.fresh "/tmp/m",
          @mkWorld Mem.sdk (Mem.mkFs (Mem.local_env "/tmp/m") [])
            [IoOpen (LocalStorage "/tmp/m") "model.pkl" "rb"] []))
      /\ is_fitted_model (Mem.fresh "/tmp/m") = false)
  /\ (@_load_state Mem.sdk_exit_fails
        (Mem.fresh "/tmp/m",
         @mkWorld Mem.sdk_exit_fails
           (Mem.mkFs (Mem.local_env "/tmp/m")
              [("/tmp/m/model.pkl", FittedMLModel.mk [(PStr "0", "a")])]) [] [])
      = (Raise (OtherException "OSError" "/tmp/m/model.pkl"),
         (upd_model (FittedMLModel.mk [(PStr "0", "a")]) (Mem.fresh "/tmp/m"),
          @mkWorld Mem.sdk_exit_fails
            (Mem.mkFs (Mem.local_env "/tmp/m")
               [("/tmp/m/model.pkl", FittedMLModel.mk [(PStr "0", "a")])])
            [IoOpen (LocalStorage "/tmp/m") "model.pkl" "rb"; IoRead; IoExit] []))
      /\ is_fitted_model
           (upd_model (FittedMLModel.mk [(PStr "0", "a")]) (Mem.fresh "/tmp/m"))
         = false).
Proof.
  assert (Hstored :
            @_load_state Mem.sdk
              (Mem.fresh "/tmp/m",
               Mem.boot_stored "/tmp/m" (FittedMLModel.mk [(PStr "0", "a")]))
            = (Ok tt,
               ({| model := FittedMLModel.mk [(PStr "0", "a")];
                   storage := LocalStorage "/tmp/m";
                   model_path := "model.pkl";
                   is_fitted_model := true |},
                @mkWorld Mem.sdk
                  (Mem.mkFs (Mem.local_env "/tmp/m")
                     [("/tmp/m/model.pkl", FittedMLModel.mk [(PStr "0", "a")])])
                  [IoOpen (LocalStorage "/tmp/m") "model.pkl" "rb"; IoRead; IoExit] [])))
    by (vm_compute; reflexivity).
  assert (Hempty :
            @_load_state Mem.sdk (Mem.fresh "/tmp/m", Mem.boot (Mem.local_env "/tmp/m"))
            = (Raise (KeyError (PStr "/tmp/m/model.pkl")),
               (Mem.fresh "/tmp/m",
                @mkWorld Mem.sdk (Mem.mkFs (Mem.local_env "/tmp/m") [])
                  [IoOpen (LocalStorage "/tmp/m") "model.pkl" "rb"] [])))
    by (vm_compute; reflexivity).
  assert (Hexit :
            @_load_state Mem.sdk_exit_fails
              (Mem.fresh "/tmp/m",
               @mkWorld Mem.sdk_exit_fails
                 (Mem.mkFs (Mem.local_env "/tmp/m")
                    [("/tmp/m/model.pkl", FittedMLModel.mk [(PStr "0", "a")])]) [] [])
            = (Raise (OtherException "OSError" "/tmp/m/model.pkl"),
               (upd_model (FittedMLModel.mk [(PStr "0", "a")]) (Mem.fresh "/tmp/m"),
                @mkWorld Mem.sdk_exit_fails
                  (Mem.mkFs (Mem.local_env "/tmp/m")
                     [("/tmp/m/model.pkl", FittedMLModel.mk [(PStr "0", "a")])])
                  [IoOpen (LocalStorage "/tmp/m") "model.pkl" "rb"; IoRead; IoExit] [])))
    by (vm_compute; reflexivity).
  split; [|split].
  - split; [exact Hstored|].
    destruct (@load_state_outcome Mem.sdk _ _ _ _ _ Hstored) as [Hs _].
    exact Hs.
  - split; [exact Hempty|].
    destruct (@load_state_outcome Mem.sdk _ _ _ _ _ Hempty) as [_ [_ [[Hf _] _]]].
    exact Hf.
  - split; [exact Hexit|].
    destruct (@load_state_outcome Mem.sdk_exit_fails _ _ _ _ _ Hexit)
      as [_ [_ [[Hf _] _]]].
    exact Hf.
Defined.

(** A fit whose write is refused still installs the new model. *)
Lemma fit_list_always_replaces_model_witness :
  exists w',
    @fit Mem.sdk (iter_of_list ["a"; "b"]) "/readonly"
      (Mem.fresh "/tmp/m", Mem.boot (Mem.local_env "/tmp/m"))
    = (Ok tt,
       ({| model := FittedMLModel.mk [(PStr "0", "a"); (PStr "1", "b")];
           storage := LocalStorage "/readonly";
           model_path := "model.pkl";
           is_fitted_model := false |}, w')).
Proof.
  exact (@fit_list_always_replaces_model Mem.sdk ["a"; "b"] "/readonly"
           (Mem.fresh "/tmp/m") (Mem.boot (Mem.local_env "/tmp/m")) _ _ eq_refl).
Defined.

(** A fitted controller stays fitted through a fit whose write is refused. *)
Lemma fit_keeps_fitted_witness :
  is_fitted
    (fst (snd (@fit Mem.sdk (iter_of_list ["a"]) "/readonly"
                 (upd_is_fitted_model true (Mem.fresh "/tmp/m"),
                  Mem.boot (Mem.local_env "/tmp/m")))))
  = true.
Proof.
  apply (@fit_keeps_fitted Mem.sdk (iter_of_list ["a"]) "/readonly"
           (upd_is_fitted_model true (Mem.fresh "/tmp/m"))
           (Mem.boot (Mem.local_env "/tmp/m"))).
  reflexivity.
Defined.

(** The refused write is the one record in the log; a KeyboardInterrupt
    during the build leaves the log empty. *)
Lemma fit_logs_exactly_its_failure_witness :
  w_log (snd (snd (@fit Mem.sdk (iter_of_list ["a"]) "/readonly"
                     (Mem.fresh "/tmp/m", Mem.boot (Mem.local_env "/tmp/m")))))
  = [LogError "Fit execution error: "
       (OtherException "PermissionError" "/readonly/model.pkl")]
  /\ w_log (snd (snd (@fit Mem.sdk
                        (Next "a" (NextRaises (NotException "KeyboardInterrupt" "")))
                        "/tmp/n"
                        (Mem.fresh "/tmp/m", Mem.boot (Mem.local_env "/tmp/m")))))
     = [].
Proof.
  split.
  - exact (@fit_logs_exactly_its_failure Mem.sdk (iter_of_list ["a"]) "/readonly"
             (Mem.fresh "/tmp/m") (Mem.boot (Mem.local_env "/tmp/m")) _ _ eq_refl).
  - exact (@fit_logs_exactly_its_failure Mem.sdk
             (Next "a" (NextRaises (NotException "KeyboardInterrupt" "")))
             "/tmp/n"
             (Mem.fresh "/tmp/m") (Mem.boot (Mem.local_env "/tmp/m")) _ _ eq_refl).
Defined.

(** Fitting the empty list on a writable root. *)
Lemma fit_empty_list_answers_nothing_witness :
  exists s',
    @fit Mem.sdk (iter_of_list []) ""
      (Mem.fresh "/tmp/m", Mem.boot (Mem.local_env "/tmp/m")) = (Ok tt, s')
    /\ is_fitted (fst s') = true
    /\ predict (fst s') (iter_of_list ["0"])
       = Raise (ValueError "No such id here, try 0 or 1").
Proof.
  eexists.
  destruct (@fit_empty_list_answers_nothing Mem.sdk ""
              (Mem.fresh "/tmp/m") (Mem.boot (Mem.local_env "/tmp/m"))
              _ _ _ eq_refl eq_refl) as [Hfit [Hflag [_ Hraise]]].
  split; [exact Hfit|]. split; [exact Hflag|].
  apply (Hraise "0" []).
Defined.

(** Pruning an empty root raises the backend's [KeyError]; pruning a root
    that holds a blob returns. *)
Lemma prune_state_returns_remove_outcome_witness :
  (exists s',
      @prune_state Mem.sdk "" (Mem.fresh "/tmp/m", Mem.boot (Mem.local_env "/tmp/m"))
      = (Raise (KeyError (PStr "/tmp/m/model.pkl")), s'))
  /\ (exists s',
         @prune_state Mem.sdk "/tmp/m"
           (Mem.fresh "/tmp/m",
            Mem.boot_stored "/tmp/m" (FittedMLModel.mk [(PStr "0", "a")]))
         = (Ok tt, s')).
Proof.
  split; eexists.
  - eapply (@prune_state_returns_remove_outcome Mem.sdk ""
              (Mem.fresh "/tmp/m") (Mem.boot (Mem.local_env "/tmp/m"))
              _ (LocalStorage "/tmp/m")); cbv; reflexivity.
  - eapply (@prune_state_returns_remove_outcome Mem.sdk "/tmp/m"
              (Mem.fresh "/tmp/m")
              (Mem.boot_stored "/tmp/m" (FittedMLModel.mk [(PStr "0", "a")]))
              _ (LocalStorage "/tmp/m")); cbv; reflexivity.
Defined.

(** With the storage type "ftp" construction raises. *)
Lemma init_raises_exactly_witness :
  @__init__ Mem.sdk (Mem.boot [("MLP_STORAGE_TYPE", "ftp"); ("MLP_STORAGE_DIR", "/tmp/m")])
  = (Raise (ValueError "storage_type ftp is invalid."),
     Mem.boot [("MLP_STORAGE_TYPE", "ftp"); ("MLP_STORAGE_DIR", "/tmp/m")]).
Proof.
  apply (proj2 (@init_raises_exactly Mem.sdk
                  (Mem.boot [("MLP_STORAGE_TYPE", "ftp"); ("MLP_STORAGE_DIR", "/tmp/m")])
                  (Mem.boot [("MLP_STORAGE_TYPE", "ftp"); ("MLP_STORAGE_DIR", "/tmp/m")])
                  (ValueError "storage_type ftp is invalid."))).
  left. reflexivity.
Defined.

(** A controller constructed on an empty root, fitted under an override
    and pruned. *)
Lemma reachable_model_path_witness :
  model_path
    (fst (snd (@prune_state Mem.sdk "/tmp/n"
                 (snd (@fit Mem.sdk (iter_of_list ["a"]) "/tmp/n"
                         (Mem.fresh "/tmp/m",
                          snd (@__init__ Mem.sdk (Mem.boot (Mem.local_env "/tmp/m")))))))))
  = "model.pkl".
Proof.
  apply (@reachable_model_path Mem.sdk).
  pose (w0 := Mem.boot (Mem.local_env "/tmp/m")).
  pose (w1 := snd (@__init__ Mem.sdk w0)).
  pose (s2 := snd (@fit Mem.sdk (iter_of_list ["a"]) "/tmp/n" (Mem.fresh "/tmp/m", w1))).
  assert (R0 : @reachable Mem.sdk (Mem.fresh "/tmp/m")).
  { apply (@reach_init Mem.sdk w0 w1). reflexivity. }
  assert (R1 : @reachable Mem.sdk (fst s2)).
  { apply (@reach_fit Mem.sdk (Mem.fresh "/tmp/m") (fst s2) w1 (snd s2)
             (iter_of_list ["a"]) "/tmp/n" (Ok tt) R0).
    reflexivity. }
  apply (@reach_prune Mem.sdk (fst s2) _ (snd s2)
           (snd (snd (@prune_state Mem.sdk "/tmp/n" s2)))
           "/tmp/n" (fst (@prune_state Mem.sdk "/tmp/n" s2)) R1).
  reflexivity.
Defined.
